(** * mcp-gemini: the text-statistics tool host and the chat orchestrator

    A shallow embedding of [server.py] (the two tools [analyze_text] and
    [count_sentences]) and of [client.py] (the schema translator
    [mcp_tool_to_gemini_function] and the interactive loop of [main]),
    followed by the properties the specification states about them. *)

From Stdlib Require Import String Ascii List Bool Arith NArith ZArith Lia.
From Stdlib Require Import DecimalString.
Import ListNotations.

Set Implicit Arguments.

(* ================================================================== *)
(** * Part I: server.py *)
(* ================================================================== *)

Module Server.

(** A Python [str] is a sequence of Unicode code points; [len] is the
    number of code points. *)
Definition char := N.
Definition str := list char.

(** A literal of the source, all of whose characters are ASCII. *)
Definition lit (s : string) : str := map N_of_ascii (list_ascii_of_string s).

(** The characters [str.split()] and [str.strip()] treat as whitespace
    (CPython's [Py_UNICODE_ISSPACE]). *)
Definition is_space (c : char) : bool :=
  ((9 <=? c) && (c <=? 13)          (* \t \n \v \f \r *)
   || (28 <=? c) && (c <=? 32)      (* FS GS RS US and the space *)
   || (c =? 133) || (c =? 160)      (* NEL, no-break space *)
   || (c =? 5760)                   (* U+1680 *)
   || (8192 <=? c) && (c <=? 8202)  (* U+2000 .. U+200A *)
   || (c =? 8232) || (c =? 8233)    (* U+2028, U+2029 *)
   || (c =? 8239) || (c =? 8287)    (* U+202F, U+205F *)
   || (c =? 12288))%N.              (* U+3000 *)

(** The character class [[.?!]] of the pattern in [count_sentences]. *)
Definition is_terminator (c : char) : bool :=
  ((c =? 46) || (c =? 63) || (c =? 33))%N.

Definition is_empty (s : str) : bool :=
  match s with [] => true | _ :: _ => false end.

(** Truth value of a string: non-empty. *)
Definition truthy (s : str) : bool := negb (is_empty s).

(** ** [text.split()]

    With no separator, [split] scans left to right, skips whitespace, and
    cuts a word at every maximal run of non-whitespace characters; [cur]
    holds the characters of the word being read, most recent first. *)
Fixpoint split_from (cur : str) (text : str) : list str :=
  match text with
  | [] => if is_empty cur then [] else [rev cur]
  | c :: rest =>
      if is_space c
      then (if is_empty cur then split_from [] rest
            else rev cur :: split_from [] rest)
      else split_from (c :: cur) rest
  end.

Definition split (text : str) : list str := split_from [] text.

(** ** [re.split(r'[.?!]+', text)]

    The matches of [[.?!]+] are found left to right and each one is
    greedy.  The text before the first match, between two matches and
    after the last match is emitted, empty or not.  [in_run] says that the
    scanner is inside a match; [cur] holds the segment being read, most
    recent character first. *)
Fixpoint re_split_from (in_run : bool) (cur : str) (text : str) : list str :=
  match text with
  | [] => [rev cur]
  | c :: rest =>
      if is_terminator c
      then (if in_run then re_split_from true cur rest
            else rev cur :: re_split_from true [] rest)
      else re_split_from false (c :: cur) rest
  end.

Definition re_split (text : str) : list str := re_split_from false [] text.

(** ** [s.strip()] *)
Fixpoint drop_while (p : char -> bool) (s : str) : str :=
  match s with
  | [] => []
  | c :: rest => if p c then drop_while p rest else s
  end.

Definition lstrip (s : str) : str := drop_while is_space s.
Definition rstrip (s : str) : str := rev (drop_while is_space (rev s)).
Definition strip (s : str) : str := rstrip (lstrip s).

(** ** The tools *)

(** The dictionary [{"word_count": ..., "char_count": ...}]. *)
Record analysis_result := { word_count : nat; char_count : nat }.

(** server.py, lines 12-31 (the two [print]s are server-side logging). *)
Definition analyze_text (text : str) : analysis_result :=
  let word_count := length (split text) in
  let char_count := length text in
  {| word_count := word_count; char_count := char_count |}.

(** server.py, lines 35-50. *)
Definition count_sentences (text : str) : nat :=
  let sentences := re_split text in
  let sentence_count := length (filter (fun s => truthy (strip s)) sentences) in
  sentence_count.

(** ** What the specification calls tokens and segments *)

Definition starts_with (p : char -> bool) (s : str) : bool :=
  match s with [] => false | c :: _ => p c end.

(** [tokens text toks]: [toks] are the whitespace-delimited tokens of
    [text], in order: the maximal non-empty runs of non-whitespace. *)
Inductive tokens : str -> list str -> Prop :=
| tokens_done ws :
    forallb is_space ws = true -> tokens ws []
| tokens_word ws tok rest toks :
    forallb is_space ws = true ->
    tok <> [] ->
    forallb (fun c => negb (is_space c)) tok = true ->
    (rest = [] \/ starts_with is_space rest = true) ->
    tokens rest toks ->
    tokens (ws ++ tok ++ rest) (tok :: toks).

(** [segments text segs]: [segs] is what is left of [text], in order,
    when every maximal run of terminators is cut out. *)
Inductive segments : str -> list str -> Prop :=
| segments_last seg :
    forallb (fun c => negb (is_terminator c)) seg = true ->
    segments seg [seg]
| segments_cut seg run rest segs :
    forallb (fun c => negb (is_terminator c)) seg = true ->
    run <> [] ->
    forallb is_terminator run = true ->
    starts_with is_terminator rest = false ->
    segments rest segs ->
    segments (seg ++ run ++ rest) (seg :: segs).

(** A segment is non-empty after trimming when it has a character that is
    not whitespace. *)
Definition nonblank (s : str) : bool := existsb (fun c => negb (is_space c)) s.

End Server.

(* ================================================================== *)
(** * Part II: client.py *)
(* ================================================================== *)

(** ** Python values *)

Module Py.

Local Open Scope string_scope.

#[local] Set Warnings "-register-all".

(** The values a decoded JSON document is made of ([Any] in the type
    annotations of the source).  A [dict] keeps its insertion order and
    has pairwise distinct keys. *)
Inductive json : Type :=
| JNull
| JBool (b : bool)
| JInt (n : Z)
| JFloat (literal : string)
| JStr (s : string)
| JList (items : list json)
| JDict (entries : list (string * json)).

Definition dict (V : Type) : Type := list (string * V).
Definition pydict : Type := dict json.

(** [d.get(k)]: [None] of the result stands for a missing key. *)
Fixpoint dict_lookup {V} (k : string) (d : dict V) : option V :=
  match d with
  | [] => None
  | (k', v) :: rest => if String.eqb k k' then Some v else dict_lookup k rest
  end.

(** [k in d] *)
Definition dict_contains {V} (k : string) (d : dict V) : bool :=
  match dict_lookup k d with Some _ => true | None => false end.

(** [d.get(k, default)] *)
Definition dict_get {V} (k : string) (default : V) (d : dict V) : V :=
  match dict_lookup k d with Some v => v | None => default end.

(** [d[k] = v]: an existing key keeps its place, a new one goes last. *)
Fixpoint dict_set {V} (k : string) (v : V) (d : dict V) : dict V :=
  match d with
  | [] => [(k, v)]
  | (k', v') :: rest =>
      if String.eqb k k' then (k, v) :: rest else (k', v') :: dict_set k v rest
  end.

(** Truth value of a [dict]: non-empty. *)
Definition dict_truthy {V} (d : dict V) : bool :=
  match d with [] => false | _ :: _ => true end.

Definition keys {V} (d : dict V) : list string := map fst d.

(** The representation invariant of a [dict]. *)
Definition dict_wf {V} (d : dict V) : Prop := NoDup (keys d).

(** [s.lower()], on the letters A-Z; no other character is mapped to one
    of the letters of the word the loop compares with. *)
Definition lower_ascii (a : ascii) : ascii :=
  let n := nat_of_ascii a in
  if (65 <=? n)%nat && (n <=? 90)%nat then ascii_of_nat (n + 32) else a.

Fixpoint lower (s : string) : string :=
  match s with
  | EmptyString => EmptyString
  | String a rest => String (lower_ascii a) (lower rest)
  end.

(** Exceptions, all of them instances of [Exception]. *)
Inductive exc_class : Type :=
| ConnectionRefusedError
| FileNotFoundError
| AttributeError
| UnboundLocalError
| EOFError
| JSONDecodeError
| ExceptionGroup
| OtherException (class_name : string).

Record exn : Type := Exn { exn_class : exc_class; exn_message : string }.

(** The outcome of a call: a value or a raised exception. *)
Inductive result (A : Type) : Type :=
| Ok (a : A)
| Raise (e : exn).
Arguments Ok {A} a.
Arguments Raise {A} e.

(** [type(v).__name__] *)
Definition type_name (v : json) : string :=
  match v with
  | JNull => "NoneType"
  | JBool _ => "bool"
  | JInt _ => "int"
  | JFloat _ => "float"
  | JStr _ => "str"
  | JList _ => "list"
  | JDict _ => "dict"
  end.

End Py.

(** ** The types of the two libraries the client talks to *)

(** [mcp.types] *)
Module mcp_types.
Import Py.

Record Tool : Type := {
  name : string;
  description : option string;
  inputSchema : option pydict
}.

(** A content item of a tool result.  [TextContent.text] is a [str], so
    the test [first_content.text is not None] of line 180 always passes,
    as does [isinstance(content, list)] of line 178. *)
Inductive Content : Type :=
| TextContent (text : string)
| ImageContent (data mimeType : string)
| EmbeddedResource (resource : json).

Record CallToolResult : Type := {
  content : list Content;
  isError : bool
}.

End mcp_types.

(** [google.generativeai.types] *)
Module genai.
Import Py.

Record FunctionDeclaration : Type := {
  name : string;
  description : string;
  parameters : json
}.

(** The constructor [FunctionDeclaration(name=..., description=...,
    parameters=...)] checks what it is given against the schema type of
    the library, and raises when it does not fit (a [TypeError] for a
    parameter description that is not a [str], for one).  Which values it
    refuses is the library's business: a [refusal] says what is raised, if
    anything.  What is accepted becomes the record of the arguments. *)
Definition refusal : Type := string -> string -> json -> option exn.

Definition new_FunctionDeclaration (refused : refusal)
    (name description : string) (parameters : json) : result FunctionDeclaration :=
  match refused name description parameters with
  | Some e => Raise e
  | None =>
      Ok {| name := name; description := description; parameters := parameters |}
  end.

Record GeminiTool : Type := {
  function_declarations : list FunctionDeclaration
}.

End genai.

(** What a response of the model is read for. *)
Module protos.
Import Py.

Record FunctionCall : Type := {
  name : string;
  args : pydict
}.

(** [function_call] is [None] when the part carries no call (the field
    is then falsy); [text] is empty when the part carries no text. *)
Record Part : Type := {
  function_call : option FunctionCall;
  text : string
}.

Record GenerateContentResponse : Type := {
  parts : list Part;
  prompt_feedback : option string
}.

End protos.

(** ** The client *)

Module Client.
Import Py.
Import mcp_types (Tool, inputSchema, Content, TextContent, ImageContent,
                  EmbeddedResource, CallToolResult, content, isError).
Import genai (FunctionDeclaration, GeminiTool, function_declarations, parameters).
Import protos (FunctionCall, args, Part, function_call, text,
               GenerateContentResponse, parts, prompt_feedback).

Local Open Scope string_scope.

(** *** The schema translator (lines 33-70) *)

(** [schema_type == s] for the value of [schema.get('type')]: only a
    [str] is equal to a [str]. *)
Definition str_eq (v : option json) (s : string) : bool :=
  match v with
  | Some (JStr s') => String.eqb s' s
  | _ => false
  end.

(** Lines 39-53: the chain of comparisons. *)
Definition param_type_of (schema_type : option json) : string :=
  let param_type := "STRING" in
  if str_eq schema_type "number" then "NUMBER"
  else if str_eq schema_type "integer" then "INTEGER"
  else if str_eq schema_type "boolean" then "BOOLEAN"
  else if str_eq schema_type "string" then "STRING"
  else if str_eq schema_type "array" then "ARRAY"
  else if str_eq schema_type "object" then "OBJECT"
  else param_type.

(** Lines 55-58. *)
Definition prop_definition (schema : pydict) : json :=
  JDict [("type", JStr (param_type_of (dict_lookup "type" schema)));
         ("description", dict_get "description" (JStr "") schema)].

(** Lines 38-59: the loop over [properties.items()].  [.get] on a value
    that is not a [dict] raises [AttributeError]. *)
Definition no_attribute (v : json) (attr : string) : exn :=
  Exn AttributeError
      ("'" ++ type_name v ++ "' object has no attribute '" ++ attr ++ "'").

Fixpoint translate_items (items : pydict) (properties : pydict) : result pydict :=
  match items with
  | [] => Ok properties
  | (name, JDict schema) :: rest =>
      translate_items rest (dict_set name (prop_definition schema) properties)
  | (name, schema) :: rest => Raise (no_attribute schema "get")
  end.

(** [x or ""] *)
Definition or_empty (x : option string) : string :=
  match x with Some s => s | None => "" end.

(** Lines 62-70: the call of the constructor. *)
Definition declare (refused : genai.refusal) (mcp_tool : Tool)
    (properties : pydict) (required : json) : result FunctionDeclaration :=
  genai.new_FunctionDeclaration refused
    (mcp_types.name mcp_tool)
    (or_empty (mcp_types.description mcp_tool))
    (JDict [("type", JStr "OBJECT");
            ("properties", JDict properties);
            ("required", required)]).

Definition mcp_tool_to_gemini_function (refused : genai.refusal) (mcp_tool : Tool)
  : result FunctionDeclaration :=
  let properties := [] in
  let required := JList [] in
  match inputSchema mcp_tool with
  | Some schema =>
      if dict_truthy schema && dict_contains "properties" schema then
        match dict_lookup "properties" schema with
        | Some (JDict items) =>
            match translate_items items properties with
            | Ok properties =>
                let required := dict_get "required" (JList []) schema in
                declare refused mcp_tool properties required
            | Raise e => Raise e
            end
        | Some other => Raise (no_attribute other "items")
        | None => Raise (Exn (OtherException "KeyError") "'properties'")
        end
      else declare refused mcp_tool properties required
  | None => declare refused mcp_tool properties required
  end.

(** *** What the session does: the observable events *)

(** A message given to [chat.send_message_async]: the user's text, or the
    dictionary [{"function_response": {"name": ..., "response":
    {"content": ...}}}] of lines 192-197. *)
Inductive chat_message : Type :=
| UserText (user_query : string)
| FunctionResponse (name : string) (content : string).

(** The lines the client prints.  [Log] carries a literal of the source;
    the others are the formatted lines, named after what they report. *)
Inductive output : Type :=
| Log (line : string)
| LogConnecting (server_script_path : string)         (* line 79 *)
| LogToolName (name : string)                         (* line 115 *)
| LogToolDescription (description : string)           (* line 116 *)
| LogListError (e : exn)                              (* line 121 *)
| LogToolRequest (tool_name : string) (tool_args : pydict)  (* line 167 *)
| LogCallingTool (tool_name : string)                 (* line 171 *)
| LogToolResult (tool_failed : bool) (result_content_str : string) (* line 188 *)
| LlmResponse (text : string)                         (* lines 205, 218 *)
| LogToolError (tool_name : string) (tool_err : exn)  (* line 210 *)
| LogChatError (e : exn)                              (* line 224 *)
| LogFeedback (prompt_feedback : string)              (* line 228 *)
| LogFeedbackError (inner_e : exn)                    (* line 230 *)
| LogConnectionRefused (server_script_path : string)  (* line 238 *)
| LogNotFound (server_script_path : string)           (* line 240 *)
| LogUnexpected (e : exn)                             (* line 242 *)
| Traceback.                                          (* line 244 *)

Inductive event : Type :=
| Print (o : output)
| Input (user_query : string)
| Connect (server_script_path : string)
| Initialize
| ListTools
| SendMessage (message : chat_message) (tools : option (list GeminiTool))
| CallTool (tool_name : string) (tool_args : pydict).

(** The fixed lines the claims speak of. *)
Definition tool_apology : output :=
  Log "LLM Response: Sorry, I encountered an error trying to use the tool.".
Definition no_session_apology : output :=
  Log "LLM Response: Sorry, I cannot currently use tools.".
Definition model_apology : output :=
  Log "LLM Response: Sorry, an error occurred while processing your request with the language model.".
Definition no_final_response : output :=
  Log "[Client] Gemini Chat did not provide a final text response after tool call.".
Definition no_usable_content : output :=
  Log "[Client] Received unexpected or empty response part from Gemini Chat.".

Definition no_parsable_content : string :=
  "Error: Tool executed but no parsable content returned.".
Definition failed_on_server : string :=
  "Tool execution failed on server.".

(** *** The collaborators

    The processes and libraries outside the repository.  Each call is
    answered from everything that has happened in the session so far
    ([list event], oldest first) and its arguments: with a value, or with
    an exception.  [stdio_client] is the entry into the two [async with]
    blocks; [json_loads] raises [JSONDecodeError] on a text that is not
    JSON, and may raise something else (a [ValueError] on a number of too
    many digits, a [RecursionError]); [json_dumps] is [json.dumps(_,
    indent=2)]; [declaration_refused] is the check of the constructor of
    [FunctionDeclaration]. *)
Record Env : Type := {
  declaration_refused : genai.refusal;
  stdio_client : string -> result unit;
  initialize : result unit;
  list_tools : result (list Tool);
  send_message_async :
    list event -> chat_message -> option (list GeminiTool) ->
    result GenerateContentResponse;
  call_tool : list event -> string -> pydict -> result CallToolResult;
  json_loads : string -> result json;
  json_dumps : json -> string
}.

(** *** Computations of [main]

    A computation is run after some events ([past]) with some value of
    the variable [response] of [main] (unbound at first), and gives an
    outcome, the events it added, and the new value of [response]. *)
Local Open Scope list_scope.

Definition locals : Type := option GenerateContentResponse.

Definition M (A : Type) : Type :=
  list event -> locals -> result A * list event * locals.

Definition ret {A} (a : A) : M A := fun _ response => (Ok a, [], response).

Definition raise {A} (e : exn) : M A := fun _ response => (Raise e, [], response).

Definition bind {A B} (m : M A) (f : A -> M B) : M B :=
  fun past response =>
    match m past response with
    | (Ok a, done, response') =>
        match f a (past ++ done) response' with
        | (r, done', response'') => (r, done ++ done', response'')
        end
    | (Raise e, done, response') => (Raise e, done, response')
    end.

(** [try: m  except Exception as e: handler e] *)
Definition try_except {A} (m : M A) (handler : exn -> M A) : M A :=
  fun past response =>
    match m past response with
    | (Ok a, done, response') => (Ok a, done, response')
    | (Raise e, done, response') =>
        match handler e (past ++ done) response' with
        | (r, done', response'') => (r, done ++ done', response'')
        end
    end.

(** [try: m  finally: final] *)
Definition try_finally {A} (m : M A) (final : M unit) : M A :=
  fun past response =>
    match m past response with
    | (r, done, response') =>
        match final (past ++ done) response' with
        | (Ok _, done', response'') => (r, done ++ done', response'')
        | (Raise e, done', response'') => (Raise e, done ++ done', response'')
        end
    end.

(** [async with ...: m].  The context managers of the transport and of
    the session run their body in a task group: an exception that leaves
    the body comes out of the block as an [ExceptionGroup], whose text
    does not name it. *)
Definition unhandled_errors : exn :=
  Exn ExceptionGroup "unhandled errors in a TaskGroup (1 sub-exception)".

Definition in_task_group {A} (r : result A) : result A :=
  match r with
  | Ok a => Ok a
  | Raise _ => Raise unhandled_errors
  end.

Definition async_with {A} (m : M A) : M A :=
  fun past response =>
    match m past response with
    | (r, done, response') => (in_task_group r, done, response')
    end.

Declare Scope py_scope.
Delimit Scope py_scope with py.
Notation "x <- m ;; k" := (bind m (fun x => k))
  (at level 61, m at next level, right associativity) : py_scope.
Notation "m ;; k" := (bind m (fun _ => k))
  (at level 61, right associativity) : py_scope.
Local Open Scope py_scope.

Definition emit (e : event) : M unit := fun _ response => (Ok tt, [e], response).

Definition print (o : output) : M unit := emit (Print o).

(** An outcome decided outside, after the event [e] of asking for it. *)
Definition ask {A} (e : event) (answer : list event -> result A) : M A :=
  fun past response => (answer past, [e], response).

(** Reading the variable [response]; unbound, it raises. *)
Definition unbound_response : exn :=
  Exn UnboundLocalError
      "cannot access local variable 'response' where it is not associated with a value".

Definition get_response : M GenerateContentResponse :=
  fun _ response =>
    match response with
    | Some r => (Ok r, [], response)
    | None => (Raise unbound_response, [], response)
    end.

Definition set_response (r : GenerateContentResponse) : M unit :=
  fun _ _ => (Ok tt, [], Some r).

(** [f(x) for x in xs], left to right, stopping at the first exception. *)
Fixpoint for_each {A B} (f : A -> result B) (xs : list A) : result (list B) :=
  match xs with
  | [] => Ok []
  | x :: rest =>
      match f x with
      | Ok y =>
          match for_each f rest with
          | Ok ys => Ok (y :: ys)
          | Raise e => Raise e
          end
      | Raise e => Raise e
      end
  end.

Definition lift {A} (r : result A) : M A := fun _ response => (r, [], response).

Definition str_truthy (s : string) : bool :=
  match s with EmptyString => false | String _ _ => true end.

(** *** The orchestrator (lines 73-246) *)

(** The session object bound by [async with ClientSession(...) as session]. *)
Inductive ClientSession : Type := session.

Section Orchestrator.

Variable env : Env.

(** Lines 176-186: the text that stands for the tool result.  Of what
    [json.loads] raises, only [JSONDecodeError] is caught here. *)
Definition result_content_str (tool_call_result : CallToolResult) : result string :=
  let result_content_str := no_parsable_content in
  let tool_failed := isError tool_call_result in
  match content tool_call_result with
  | first_content :: _ =>
      match first_content with
      | TextContent text =>
          let result_content_str := text in
          match json_loads env result_content_str with
          | Ok parsed => Ok (json_dumps env parsed)
          | Raise e =>
              match exn_class e with
              | JSONDecodeError => Ok result_content_str
              | _ => Raise e
              end
          end
      | _ => Ok result_content_str
      end
  | [] => Ok (if tool_failed then failed_on_server else result_content_str)
  end.

Section Turn.

Variable mcp_session : option ClientSession.
Variable gemini_tools_list : list GeminiTool.

(** [tools=gemini_tools_list if gemini_tools_list else None] *)
Definition tools_argument : option (list GeminiTool) :=
  match gemini_tools_list with
  | [] => None
  | _ :: _ => Some gemini_tools_list
  end.

(** [await chat.send_message_async(message, tools=...)] *)
Definition send_message (message : chat_message) : M GenerateContentResponse :=
  ask (SendMessage message tools_argument)
      (fun past => send_message_async env past message tools_argument).

(** Lines 170-214: the tool round trip. *)
Definition dispatch (tool_name : string) (tool_args : pydict) : M unit :=
  match mcp_session with
  | Some _ =>
      print (LogCallingTool tool_name);;
      try_except
        (tool_call_result <-
           ask (CallTool tool_name tool_args)
               (fun past => call_tool env past tool_name tool_args);;
         result_content_str <- lift (result_content_str tool_call_result);;
         let tool_failed := isError tool_call_result in
         print (LogToolResult tool_failed result_content_str);;
         print (Log "[Client] Sending tool result back to Gemini Chat...");;
         response <- send_message (FunctionResponse tool_name result_content_str);;
         set_response response;;
         match parts response with
         | part :: _ =>
             if str_truthy (text part)
             then print (LlmResponse (text part))
             else print no_final_response
         | [] => print no_final_response
         end)
        (fun tool_err =>
           print (LogToolError tool_name tool_err);;
           print tool_apology)
  | None =>
      print (Log "[Client] Error: MCP Session not available to call tool.");;
      print no_session_apology
  end.

(** Lines 226-230: the look at [response.prompt_feedback]. *)
Definition report_feedback : M unit :=
  try_except
    (response <- get_response;;
     match prompt_feedback response with
     | Some feedback => print (LogFeedback feedback)
     | None => ret tt
     end)
    (fun inner_e =>
       match exn_class inner_e with
       | AttributeError => ret tt
       | _ => print (LogFeedbackError inner_e)
       end).

(** Lines 150-232: one turn, for a query that is neither empty nor the
    quit command. *)
Definition process_query (user_query : string) : M unit :=
  try_except
    (print (Log "[Client] Sending query to Gemini Chat...");;
     response <- send_message (UserText user_query);;
     set_response response;;
     let response_part := hd_error (parts response) in
     match response_part with
     | Some part =>
         match function_call part with
         | Some function_call =>
             let tool_name := protos.name function_call in
             let tool_args := args function_call in
             print (LogToolRequest tool_name tool_args);;
             dispatch tool_name tool_args
         | None =>
             if str_truthy (text part)
             then print (LlmResponse (text part))
             else print no_usable_content
         end
     | None => print no_usable_content
     end)
    (fun e =>
       print (LogChatError e);;
       report_feedback;;
       print model_apology).

(** Lines 143-232: the loop.  [inputs] are the lines standard input
    holds; [input] raises [EOFError] once they are used up. *)
Fixpoint chat_loop (inputs : list string) : M unit :=
  match inputs with
  | [] => raise (Exn EOFError "EOF when reading a line")  (* line 144 *)
  | user_query :: inputs =>
      emit (Input user_query);;
      if String.eqb (lower user_query) "quit" then ret tt
      else if negb (str_truthy user_query) then chat_loop inputs
      else (process_query user_query;; chat_loop inputs)
  end.

End Turn.

(** Lines 111-119. *)
Fixpoint print_tools (tools : list Tool) : M unit :=
  match tools with
  | [] => ret tt
  | tool :: tools =>
      print (LogToolName (mcp_types.name tool));;
      print (LogToolDescription
               (match mcp_types.description tool with
                | Some (String _ _ as d) => d
                | _ => "No description"
                end));;
      print_tools tools
  end.

Definition rule : output := Log "--------------------".

(** Lines 104-121: the tools of the server, none if listing them fails. *)
Definition discover_tools : M (list Tool) :=
  print (Log "[Client] Discovering tools from server...");;
  try_except
    (available_mcp_tools <- ask ListTools (fun _ => list_tools env);;
     match available_mcp_tools with
     | _ :: _ =>
         print rule;;
         print (Log "Available Tools from this Server:");;
         print_tools available_mcp_tools;;
         print rule
     | [] => print (Log "[Client] No tools discovered from this server.")
     end;;
     ret available_mcp_tools)
    (fun e => print (LogListError e);; ret []).

(** Lines 123-130. *)
Definition convert_tools (available_mcp_tools : list Tool) : M (list GeminiTool) :=
  gemini_functions <-
    lift (for_each (mcp_tool_to_gemini_function (declaration_refused env))
                   available_mcp_tools);;
  match gemini_functions with
  | _ :: _ =>
      print (Log "[Client] Converted MCP tools for Gemini.");;
      ret [{| function_declarations := gemini_functions |}]
  | [] =>
      print (Log "[Client] No tools discovered or converted for Gemini.");;
      ret []
  end.

(** Lines 78-246, after the check of the command line. *)
Definition main (server_script_path : string) (inputs : list string) : M unit :=
  print (LogConnecting server_script_path);;
  try_finally
    (try_except
       (ask (Connect server_script_path) (fun _ => stdio_client env server_script_path);;
        async_with
          (print (Log "[Client] Stdio transport established.");;
           async_with
             (let mcp_session := Some session in
              print (Log "[Client] Initializing MCP session...");;
              ask Initialize (fun _ => initialize env);;
              print (Log "[Client] MCP Session Initialized.");;
              available_mcp_tools <- discover_tools;;
              gemini_tools_list <- convert_tools available_mcp_tools;;
              print (Log "--- MCP Client Ready (Using Gemini Chat) ---");;
              print (Log "Enter your query, or type 'quit' to exit.");;
              chat_loop mcp_session gemini_tools_list inputs)))
       (fun e =>
          match exn_class e with
          | ConnectionRefusedError => print (LogConnectionRefused server_script_path)
          | FileNotFoundError => print (LogNotFound server_script_path)
          | _ => print (LogUnexpected e);; print Traceback
          end))
    (print (Log "[Client] Exiting.")).

(** Running a computation from the start of the process. *)
Definition outcome {A} (m : M A) : result A := fst (fst (m [] None)).
Definition events {A} (m : M A) : list event := snd (fst (m [] None)).

End Orchestrator.

(** *** Reading a list of events *)

Definition is_quit (user_query : string) : bool := String.eqb (lower user_query) "quit".

(** The lines of [inputs] the loop gets to read: all up to the first
    quit command, and that one. *)
Fixpoint until_quit (inputs : list string) : list string :=
  match inputs with
  | [] => []
  | user_query :: inputs =>
      user_query :: (if is_quit user_query then [] else until_quit inputs)
  end.

Definition input_of (e : event) : option string :=
  match e with Input user_query => Some user_query | _ => None end.

Fixpoint inputs_read (evs : list event) : list string :=
  match evs with
  | [] => []
  | e :: evs =>
      match input_of e with
      | Some q => q :: inputs_read evs
      | None => inputs_read evs
      end
  end.

(** *** Names for stretches of a session *)

Definition sending_query : event :=
  Print (Log "[Client] Sending query to Gemini Chat...").
Definition sending_result : event :=
  Print (Log "[Client] Sending tool result back to Gemini Chat...").

(** A turn up to the call of the tool the model asked for: the first
    model call and the two lines that announce the tool call. *)
Definition up_to_tool_call (user_query : string)
    (tools : option (list GeminiTool)) (fc : FunctionCall) : list event :=
  [sending_query;
   SendMessage (UserText user_query) tools;
   Print (LogToolRequest (protos.name fc) (args fc));
   Print (LogCallingTool (protos.name fc))].

Definition tool_call (fc : FunctionCall) : event :=
  CallTool (protos.name fc) (args fc).

(** From the result of the tool, serialized as [payload], to the second
    model call. *)
Definition relay (tools : option (list GeminiTool))
    (fc : FunctionCall) (r : CallToolResult) (payload : string) : list event :=
  [Print (LogToolResult (isError r) payload);
   sending_result;
   SendMessage (FunctionResponse (protos.name fc) payload) tools].

(** What is printed for the response to the tool result. *)
Definition final_line (response : GenerateContentResponse) : output :=
  match parts response with
  | part :: _ =>
      if str_truthy (text part) then LlmResponse (text part) else no_final_response
  | [] => no_final_response
  end.

(** The report of an exception in the tool round trip. *)
Definition tool_error_report (fc : FunctionCall) (e : exn) : list event :=
  [Print (LogToolError (protos.name fc) e); Print tool_apology].

(** The report of an exception of the first model call, when the
    variable [response] holds [response]. *)
Definition model_error_report (response : locals) (e : exn) : list event :=
  Print (LogChatError e)
  :: match response with
     | None => [Print (LogFeedbackError unbound_response)]
     | Some r =>
         match prompt_feedback r with
         | Some feedback => [Print (LogFeedback feedback)]
         | None => []
         end
     end
  ++ [Print model_apology].

(** The session up to the answer of [list_tools]. *)
Definition connected (server_script_path : string) : list event :=
  [Print (LogConnecting server_script_path);
   Connect server_script_path;
   Print (Log "[Client] Stdio transport established.");
   Print (Log "[Client] Initializing MCP session...");
   Initialize;
   Print (Log "[Client] MCP Session Initialized.");
   Print (Log "[Client] Discovering tools from server...");
   ListTools].

Definition ready : list event :=
  [Print (Log "--- MCP Client Ready (Using Gemini Chat) ---");
   Print (Log "Enter your query, or type 'quit' to exit.")].

(** The end of the process, after the loop ended with [r]. *)
Definition closing (server_script_path : string) (r : result unit) : list event :=
  match r with
  | Ok _ => []
  | Raise e =>
      match exn_class e with
      | ConnectionRefusedError => [Print (LogConnectionRefused server_script_path)]
      | FileNotFoundError => [Print (LogNotFound server_script_path)]
      | _ => [Print (LogUnexpected e); Print Traceback]
      end
  end ++ [Print (Log "[Client] Exiting.")].

Definition end_of_input : exn := Exn EOFError "EOF when reading a line".

Definition is_call_tool (e : event) : bool :=
  match e with CallTool _ _ => true | _ => false end.

Definition is_send_message (e : event) : bool :=
  match e with SendMessage _ _ => true | _ => false end.

Definition is_function_response (e : event) : bool :=
  match e with SendMessage (FunctionResponse _ _) _ => true | _ => false end.

(** The [tools] argument of the model calls among [evs]. *)
Fixpoint tools_sent (evs : list event) : list (option (list GeminiTool)) :=
  match evs with
  | [] => []
  | SendMessage _ tools :: evs => tools :: tools_sent evs
  | _ :: evs => tools_sent evs
  end.

End Client.

(** ** The words of the specification *)

Module Stated.
Import Py.
Import mcp_types (Tool, inputSchema).
Local Open Scope string_scope.

(** The fixed lookup of the specification, from declared type to the
    vocabulary of the model. *)
Definition type_lookup : dict string :=
  [("number", "NUMBER"); ("integer", "INTEGER"); ("boolean", "BOOLEAN");
   ("string", "STRING"); ("array", "ARRAY"); ("object", "OBJECT")].

(** A declared type is mapped by the lookup; an unmapped or missing one
    gets [STRING]. *)
Definition mapped_type (declared : option json) : string :=
  match declared with
  | Some (JStr s) => dict_get s "STRING" type_lookup
  | _ => "STRING"
  end.

(** One parameter of the declaration: its mapped type, and its
    description, the empty string if there is none. *)
Definition parameter (schema : json) : json :=
  match schema with
  | JDict schema =>
      JDict [("type", JStr (mapped_type (dict_lookup "type" schema)));
             ("description",
              match dict_lookup "description" schema with
              | Some d => d
              | None => JStr ""
              end)]
  | _ => JNull
  end.

(** The ['properties'] entry of the input schema, if there is one. *)
Definition declared (mcp_tool : Tool) : option json :=
  match inputSchema mcp_tool with
  | Some schema => dict_lookup "properties" schema
  | None => None
  end.

(** The declared parameters, in order. *)
Definition declared_parameters (mcp_tool : Tool) : pydict :=
  match declared mcp_tool with
  | Some (JDict items) => items
  | _ => []
  end.

(** The required list the translator hands on: that of a schema with a
    ['properties'] entry, and the empty list otherwise. *)
Definition required_list (mcp_tool : Tool) : json :=
  match inputSchema mcp_tool with
  | Some schema =>
      match dict_lookup "properties" schema, dict_lookup "required" schema with
      | Some _, Some required => required
      | _, _ => JList []
      end
  | None => JList []
  end.

Definition declaration (mcp_tool : Tool) : genai.FunctionDeclaration :=
  {| genai.name := mcp_types.name mcp_tool;
     genai.description :=
       match mcp_types.description mcp_tool with Some d => d | None => "" end;
     genai.parameters :=
       JDict [("type", JStr "OBJECT");
              ("properties",
               JDict (map (fun p => (fst p, parameter (snd p)))
                          (declared_parameters mcp_tool)));
              ("required", required_list mcp_tool)] |}.

Definition is_dict (v : json) : bool :=
  match v with JDict _ => true | _ => false end.

(** The schemas the translator is written for: the ['properties'] entry,
    when there is one, is a [dict] whose values are [dict]s. *)
Definition parameters_ok (mcp_tool : Tool) : Prop :=
  match declared mcp_tool with
  | Some (JDict items) => dict_wf items /\ forallb is_dict (map snd items) = true
  | Some _ => False
  | None => True
  end.

End Stated.

(** ** Sessions to run the client in *)

Module Scenario.
Import Py.
Import mcp_types (Tool, inputSchema, Content, TextContent, ImageContent,
                  CallToolResult, content, isError).
Import protos (FunctionCall, args, Part, function_call, text,
               GenerateContentResponse, parts, prompt_feedback).
Import Client.
Local Open Scope string_scope.

Definition decimal (n : nat) : string := NilZero.string_of_uint (Nat.to_uint n).

Definition newline : string := String (ascii_of_nat 10) EmptyString.

(** A stand-in for the [json] module that knows the natural numbers and
    the lists of natural numbers, and nothing else.  [small_dumps] prints
    with [indent=2]: a list goes over several lines. *)
Definition number_dumps (v : json) : string :=
  match v with
  | JInt n => decimal (Z.to_nat n)
  | _ => "null"
  end.

Fixpoint items_dumps (items : list json) : string :=
  match items with
  | [] => EmptyString
  | [v] => "  " ++ number_dumps v ++ newline
  | v :: items => "  " ++ number_dumps v ++ "," ++ newline ++ items_dumps items
  end.

Definition small_dumps (v : json) : string :=
  match v with
  | JList [] => "[]"
  | JList items => "[" ++ newline ++ items_dumps items ++ "]"
  | _ => number_dumps v
  end.

Definition not_json : exn := Exn JSONDecodeError "Expecting value".
Definition too_many_digits : exn :=
  Exn (OtherException "ValueError")
      "Exceeds the limit (4300 digits) for integer string conversion".

Definition number_loads (s : string) : result json :=
  match NilEmpty.uint_of_string s with
  | Some u =>
      if (4300 <? String.length s)%nat then Raise too_many_digits
      else
        let v := JInt (Z.of_nat (Nat.of_uint u)) in
        if String.eqb (number_dumps v) s then Ok v else Raise not_json
  | None => Raise not_json
  end.

(** The pieces of a text between commas. *)
Fixpoint pieces (s : list ascii) : list (list ascii) :=
  match s with
  | [] => [[]]
  | c :: s =>
      match pieces s with
      | piece :: rest =>
          if Ascii.eqb c "," then [] :: piece :: rest else (c :: piece) :: rest
      | [] => [[c]]
      end
  end.

Fixpoint drop_spaces (s : list ascii) : list ascii :=
  match s with
  | c :: rest => if Ascii.eqb c " " then drop_spaces rest else s
  | [] => []
  end.

Definition trimmed (s : list ascii) : string :=
  string_of_list_ascii (rev (drop_spaces (rev (drop_spaces s)))).

Fixpoint numbers_loads (ps : list (list ascii)) : result (list json) :=
  match ps with
  | [] => Ok []
  | piece :: ps =>
      match number_loads (trimmed piece), numbers_loads ps with
      | Ok v, Ok vs => Ok (v :: vs)
      | Raise e, _ => Raise e
      | _, Raise e => Raise e
      end
  end.

Definition small_loads (s : string) : result json :=
  match list_ascii_of_string s with
  | "["%char :: body =>
      match rev body with
      | "]"%char :: inside =>
          match drop_spaces inside with
          | [] => Ok (JList [])
          | _ =>
              match numbers_loads (pieces (rev inside)) with
              | Ok vs => Ok (JList vs)
              | Raise e => Raise e
              end
          end
      | _ => Raise not_json
      end
  | _ => number_loads s
  end.

(** A stand-in for the check of the constructor of [FunctionDeclaration]:
    it refuses, with a [TypeError], parameters one of whose properties has
    a description that is not a [str], and a required list that is not a
    list of [str]. *)
Definition is_str (v : json) : bool :=
  match v with JStr _ => true | _ => false end.

Definition described (v : json) : bool :=
  match v with
  | JDict d => match dict_lookup "description" d with Some (JStr _) => true | _ => false end
  | _ => false
  end.

Definition bad_schema : exn :=
  Exn (OtherException "TypeError") "Could not convert the parameters to a Schema".

Definition schema_refused : genai.refusal :=
  fun name description parameters =>
    match parameters with
    | JDict d =>
        match dict_lookup "properties" d, dict_lookup "required" d with
        | Some (JDict props), Some (JList names) =>
            if forallb described (map snd props) && forallb is_str names
            then None else Some bad_schema
        | _, _ => Some bad_schema
        end
    | _ => Some bad_schema
    end.

(** The descriptors [server.py] registers: one parameter, [text]. *)
Definition text_schema (title : string) : pydict :=
  [("properties", JDict [("text", JDict [("title", JStr "Text"); ("type", JStr "string")])]);
   ("required", JList [JStr "text"]);
   ("title", JStr title);
   ("type", JStr "object")].

Definition analyze_text_tool : Tool :=
  {| mcp_types.name := "analyze_text";
     mcp_types.description :=
       Some "Analyzes the provided text and returns the word count and character count.";
     mcp_types.inputSchema := Some (text_schema "analyze_textArguments") |}.

Definition count_sentences_tool : Tool :=
  {| mcp_types.name := "count_sentences";
     mcp_types.description := Some "Counts the number of sentences in the provided text.";
     mcp_types.inputSchema := Some (text_schema "count_sentencesArguments") |}.

(** A descriptor whose schema lists a required parameter and has no
    ['properties'] entry. *)
Definition bare_required_tool : Tool :=
  {| mcp_types.name := "ping";
     mcp_types.description := None;
     mcp_types.inputSchema :=
       Some [("type", JStr "object"); ("required", JList [JStr "text"])] |}.

(** A descriptor one of whose parameters has the schema [true]. *)
Definition boolean_schema_tool : Tool :=
  {| mcp_types.name := "echo";
     mcp_types.description := Some "";
     mcp_types.inputSchema :=
       Some [("type", JStr "object"); ("properties", JDict [("x", JBool true)])] |}.

(** A descriptor one of whose parameters has the number 5 for a
    description. *)
Definition numeric_description_tool : Tool :=
  {| mcp_types.name := "scale";
     mcp_types.description := Some "Scales a value.";
     mcp_types.inputSchema :=
       Some [("type", JStr "object");
             ("properties",
              JDict [("x", JDict [("type", JStr "number");
                                  ("description", JInt 5)])])] |}.

(** The server of the repository, for [count_sentences]: the count comes
    back as one text item.  Any other name is answered with the error
    flag and a text that says so. *)
Definition text_analyzer (tool_name : string) (tool_args : pydict) : result CallToolResult :=
  if String.eqb tool_name "count_sentences" then
    match dict_lookup "text" tool_args with
    | Some (JStr s) =>
        Ok {| content := [TextContent (decimal (Server.count_sentences (Server.lit s)))];
              isError := false |}
    | _ =>
        Ok {| content := [TextContent "Error executing tool count_sentences"];
              isError := true |}
    end
  else Ok {| content := [TextContent ("Unknown tool: " ++ tool_name)]; isError := true |}.

(** A host that reports failure with no content at all. *)
Definition silent_failure (tool_name : string) (tool_args : pydict) : result CallToolResult :=
  Ok {| content := []; isError := true |}.


(** A host that reports failure with a picture. *)
Definition picture_failure (tool_name : string) (tool_args : pydict) : result CallToolResult :=
  Ok {| content := [ImageContent "iVBORw0KGgo=" "image/png"]; isError := true |}.

(** A host that answers with a list on one line. *)
Definition pair_host (tool_name : string) (tool_args : pydict) : result CallToolResult :=
  Ok {| content := [TextContent "[3, 6]"]; isError := false |}.

(** A host that answers with a text of 4301 digits. *)
Definition long_number : string :=
  string_of_list_ascii (repeat "7"%char 4301).
Definition long_number_host (tool_name : string) (tool_args : pydict)
  : result CallToolResult :=
  Ok {| content := [TextContent long_number]; isError := false |}.

(** A host whose connection is gone. *)
Definition closed : exn := Exn (OtherException "McpError") "Connection closed".
Definition unreachable (tool_name : string) (tool_args : pydict) : result CallToolResult :=
  Raise closed.

Definition reply (p : Part) : result GenerateContentResponse :=
  Ok {| parts := [p]; prompt_feedback := None |}.

Definition asks_for (tool_name : string) (s : string) : Part :=
  {| function_call := Some {| protos.name := tool_name; args := [("text", JStr s)] |};
     text := "" |}.

Definition says (s : string) : Part := {| function_call := None; text := s |}.

(** A model that asks for [tool_name] on the user's text and then words
    the result. *)
Definition model_using (tool_name : string) (message : chat_message)
  : result GenerateContentResponse :=
  match message with
  | UserText _ => reply (asks_for tool_name "Hi. Bye!")
  | FunctionResponse _ content => reply (says ("The tool says: " ++ content))
  end.

(** A model that answers everything, a tool result too, by asking for
    the tool. *)
Definition insistent_model (message : chat_message) : result GenerateContentResponse :=
  reply (asks_for "count_sentences" "Hi. Bye!").

Definition session_of (tools : result (list Tool))
    (model : chat_message -> result GenerateContentResponse)
    (host : string -> pydict -> result CallToolResult) : Env :=
  {| declaration_refused := schema_refused;
     stdio_client := fun _ => Ok tt;
     initialize := Ok tt;
     list_tools := tools;
     send_message_async := fun _ message _ => model message;
     call_tool := fun _ => host;
     json_loads := small_loads;
     json_dumps := small_dumps |}.

Definition server_tools : list Tool := [analyze_text_tool; count_sentences_tool].

(** The call the scripted models ask for. *)
Definition asked (tool_name : string) : FunctionCall :=
  {| protos.name := tool_name; args := [("text", JStr "Hi. Bye!")] |}.

(** Sessions in which the tool call goes wrong, one way or another. *)
Definition with_unreachable_host : Env :=
  session_of (Ok server_tools) (model_using "count_sentences") unreachable.

Definition with_silent_failure : Env :=
  session_of (Ok server_tools) (model_using "count_sentences") silent_failure.

Definition with_unknown_tool : Env :=
  session_of (Ok server_tools) (model_using "word_cloud") text_analyzer.

Definition with_insistent_model : Env :=
  session_of (Ok server_tools) insistent_model text_analyzer.


Definition with_picture_failure : Env :=
  session_of (Ok server_tools) (model_using "count_sentences") picture_failure.

Definition with_pair_host : Env :=
  session_of (Ok server_tools) (model_using "analyze_text") pair_host.

Definition with_long_number : Env :=
  session_of (Ok server_tools) (model_using "count_sentences") long_number_host.

(** Sessions without tools. *)
Definition without_listing : Env :=
  session_of (Raise closed) (model_using "count_sentences") text_analyzer.

Definition without_tools : Env :=
  session_of (Ok []) (fun _ => reply (says "Hello.")) text_analyzer.


(** The end-to-end session of the specification. *)
Definition demo : Env :=
  session_of (Ok server_tools) (model_using "count_sentences") text_analyzer.

End Scenario.

(** ** More ways to read a session *)

Module Observed.
Import Py.
Import mcp_types (Tool, inputSchema).
Import genai (FunctionDeclaration, GeminiTool, function_declarations).
Import protos (FunctionCall, args, Part, function_call, text,
               GenerateContentResponse, parts).
Import Client Stated.
Local Open Scope string_scope.

(** The names of the model vocabulary. *)
Definition vocabulary : list string := map snd type_lookup.

(** The descriptors the translator goes through without raising: the
    ['properties'] entry, when there is one, is a [dict] whose values are
    [dict]s. *)
Definition translatable (mcp_tool : Tool) : bool :=
  match declared mcp_tool with
  | Some (JDict items) => forallb is_dict (map snd items)
  | Some _ => false
  | None => true
  end.

(** An entry of the ['properties'] of a declaration whose type is a name
    of the vocabulary. *)
Definition in_vocabulary (entry : string * json) : Prop :=
  exists t d,
    snd entry = JDict [("type", JStr t); ("description", d)] /\ In t vocabulary.

(** The call the first part of a response asks for, if any. *)
Definition requested (response : GenerateContentResponse) : option FunctionCall :=
  match parts response with
  | part :: _ => function_call part
  | [] => None
  end.

(** What is printed for a response that asks for no tool. *)
Definition direct_line (response : GenerateContentResponse) : output :=
  match parts response with
  | part :: _ =>
      if str_truthy (text part) then LlmResponse (text part) else no_usable_content
  | [] => no_usable_content
  end.

(** The lines of [inputs] that are queries: those before the first quit
    command that are not empty. *)
Fixpoint queries (inputs : list string) : list string :=
  match inputs with
  | [] => []
  | user_query :: inputs =>
      if is_quit user_query then []
      else if str_truthy user_query then user_query :: queries inputs
      else queries inputs
  end.

(** The user texts given to the model among [evs], in order. *)
Fixpoint queries_sent (evs : list event) : list string :=
  match evs with
  | [] => []
  | SendMessage (UserText user_query) _ :: evs => user_query :: queries_sent evs
  | _ :: evs => queries_sent evs
  end.

(** The events of the start of a session. *)
Definition is_startup (e : event) : bool :=
  match e with
  | Connect _ | Initialize | ListTools => true
  | _ => false
  end.

Definition is_list_tools (e : event) : bool :=
  match e with ListTools => true | _ => false end.

Definition exiting : event := Print (Log "[Client] Exiting.").

(** The tools the session goes on with after the answer [r] of
    [list_tools]. *)
Definition available (r : result (list Tool)) : list Tool :=
  match r with Ok tools => tools | Raise _ => [] end.

Definition shown_description (tool : Tool) : string :=
  match mcp_types.description tool with
  | Some (String _ _ as d) => d
  | _ => "No description"
  end.

Definition tool_lines (tools : list Tool) : list event :=
  flat_map (fun tool => [Print (LogToolName (mcp_types.name tool));
                         Print (LogToolDescription (shown_description tool))])
           tools.

(** What is printed for the answer [r] of [list_tools]. *)
Definition listing (r : result (list Tool)) : list event :=
  match r with
  | Ok [] => [Print (Log "[Client] No tools discovered from this server.")]
  | Ok tools =>
      [Print rule; Print (Log "Available Tools from this Server:")]
      ++ tool_lines tools ++ [Print rule]
  | Raise e => [Print (LogListError e)]
  end.

(** The list given to the loop for the declarations [gemini_functions],
    and the line printed for it. *)
Definition tools_list (gemini_functions : list FunctionDeclaration) : list GeminiTool :=
  match gemini_functions with
  | [] => []
  | _ :: _ => [{| function_declarations := gemini_functions |}]
  end.

Definition converted_line (gemini_functions : list FunctionDeclaration) : event :=
  match gemini_functions with
  | [] => Print (Log "[Client] No tools discovered or converted for Gemini.")
  | _ :: _ => Print (Log "[Client] Converted MCP tools for Gemini.")
  end.

(** The session up to the call of [initialize]. *)
Definition connecting (server_script_path : string) : list event :=
  [Print (LogConnecting server_script_path);
   Connect server_script_path;
   Print (Log "[Client] Stdio transport established.");
   Print (Log "[Client] Initializing MCP session...");
   Initialize].

(** A printed line other than the apology of a turn without session. *)
Definition plain_line (e : event) : Prop :=
  exists o, e = Print o /\ o <> no_session_apology.

(** Sessions whose start goes wrong. *)
Definition missing_script : exn :=
  Exn FileNotFoundError "[Errno 2] No such file or directory".

Definition with_missing_server : Env :=
  {| declaration_refused := declaration_refused Scenario.demo;
     stdio_client := fun _ => Raise missing_script;
     initialize := initialize Scenario.demo;
     list_tools := list_tools Scenario.demo;
     send_message_async := send_message_async Scenario.demo;
     call_tool := call_tool Scenario.demo;
     json_loads := json_loads Scenario.demo;
     json_dumps := json_dumps Scenario.demo |}.

Definition with_malformed_tool : Env :=
  Scenario.session_of
    (Ok [Scenario.count_sentences_tool; Scenario.boolean_schema_tool])
    (Scenario.model_using "count_sentences") Scenario.text_analyzer.

Definition with_refused_tool : Env :=
  Scenario.session_of
    (Ok [Scenario.count_sentences_tool; Scenario.numeric_description_tool])
    (Scenario.model_using "count_sentences") Scenario.text_analyzer.

Definition unready : exn := Exn (OtherException "McpError") "Connection closed".

Definition with_failing_initialize : Env :=
  {| declaration_refused := declaration_refused Scenario.demo;
     stdio_client := stdio_client Scenario.demo;
     initialize := Raise unready;
     list_tools := list_tools Scenario.demo;
     send_message_async := send_message_async Scenario.demo;
     call_tool := call_tool Scenario.demo;
     json_loads := json_loads Scenario.demo;
     json_dumps := json_dumps Scenario.demo |}.

End Observed.

(* ================================================================== *)
(** * Part III: properties of server.py *)
(* ================================================================== *)

Module ServerFacts.
Import Server.

(** ** Generalities on lists of characters *)

Lemma is_empty_rev (s : str) : is_empty (rev s) = is_empty s.
Proof.
  destruct s as [|c s]; [reflexivity|]. simpl.
  destruct (rev s); reflexivity.
Qed.

Lemma forallb_rev (p : char -> bool) (s : str) : forallb p (rev s) = forallb p s.
Proof.
  induction s as [|c s IH]; [reflexivity|]. simpl.
  rewrite forallb_app, IH. simpl. rewrite andb_true_r. apply andb_comm.
Qed.

Lemma is_empty_drop_while (p : char -> bool) (s : str) :
  is_empty (drop_while p s) = forallb p s.
Proof.
  induction s as [|c s IH]; [reflexivity|]. simpl.
  destruct (p c); [exact IH | reflexivity].
Qed.

Lemma forallb_drop_while (p : char -> bool) (s : str) :
  forallb p (drop_while p s) = forallb p s.
Proof.
  induction s as [|c s IH]; [reflexivity|]. simpl.
  destruct (p c) eqn:E; [exact IH | simpl; now rewrite E].
Qed.

Lemma not_forallb (p : char -> bool) (s : str) :
  negb (forallb p s) = existsb (fun c => negb (p c)) s.
Proof.
  induction s as [|c s IH]; [reflexivity|]. simpl.
  rewrite negb_andb, IH. reflexivity.
Qed.

(** A string survives [strip] exactly when it has a character that is not
    whitespace. *)
Lemma strip_truthy (s : str) : truthy (strip s) = nonblank s.
Proof.
  unfold truthy, strip, rstrip, lstrip, nonblank.
  rewrite is_empty_rev, is_empty_drop_while, forallb_rev, forallb_drop_while.
  apply not_forallb.
Qed.

(** ** [split] and the tokens *)

Lemma split_from_spaces (ws rest : str) :
  forallb is_space ws = true ->
  split_from [] (ws ++ rest) = split_from [] rest.
Proof.
  induction ws as [|c ws IH]; simpl; [reflexivity|].
  intros H. apply andb_true_iff in H as [Hc Hws].
  rewrite Hc. simpl. auto.
Qed.

Lemma split_from_word (tok : str) : forall cur rest,
  forallb (fun c => negb (is_space c)) tok = true ->
  split_from cur (tok ++ rest) = split_from (rev tok ++ cur) rest.
Proof.
  induction tok as [|c tok IH]; simpl; intros cur rest H; [reflexivity|].
  apply andb_true_iff in H as [Hc Htok].
  apply negb_true_iff in Hc. rewrite Hc.
  rewrite IH by assumption. now rewrite <- app_assoc.
Qed.

Lemma split_from_cut (cur rest : str) :
  cur <> [] ->
  rest = [] \/ starts_with is_space rest = true ->
  split_from cur rest = rev cur :: split_from [] rest.
Proof.
  intros Hcur [-> | H].
  - simpl. destruct cur; [congruence | reflexivity].
  - destruct rest as [|c rest]; [discriminate|]. simpl in *.
    rewrite H. destruct cur; [congruence | reflexivity].
Qed.

(** The tokens of a text are unique: they are what [split] returns. *)
Lemma tokens_split (text : str) (toks : list str) :
  tokens text toks -> split text = toks.
Proof.
  unfold split. induction 1 as [ws Hws | ws tok rest toks Hws Htok Hns Hrest _ IH].
  - rewrite <- (app_nil_r ws). now rewrite split_from_spaces.
  - rewrite split_from_spaces by assumption.
    rewrite split_from_word by assumption. rewrite app_nil_r.
    rewrite split_from_cut; try assumption.
    + now rewrite rev_involutive, IH.
    + intros E. apply Htok. apply (f_equal (@rev char)) in E.
      now rewrite rev_involutive in E.
Qed.

Lemma tokens_space_cons (c : char) (text : str) (toks : list str) :
  is_space c = true -> tokens text toks -> tokens (c :: text) toks.
Proof.
  intros Hc H. destruct H as [ws Hws | ws tok rest toks Hws Htok Hns Hrest H].
  - apply tokens_done. simpl. now rewrite Hc.
  - change (c :: ws ++ tok ++ rest) with ((c :: ws) ++ tok ++ rest).
    apply tokens_word; try assumption. simpl. now rewrite Hc.
Qed.

Lemma split_from_tokens (text : str) : forall cur,
  forallb (fun c => negb (is_space c)) cur = true ->
  tokens (rev cur ++ text) (split_from cur text).
Proof.
  induction text as [|c text IH]; intros cur Hcur; simpl.
  - rewrite app_nil_r. destruct cur as [|a cur].
    + apply tokens_done. reflexivity.
    + simpl is_empty. cbv iota.
      assert (H : tokens ([] ++ rev (a :: cur) ++ []) [rev (a :: cur)]).
      { apply tokens_word.
        - reflexivity.
        - intros E. apply (f_equal (@length char)) in E.
          rewrite length_rev in E. discriminate.
        - now rewrite forallb_rev.
        - now left.
        - apply tokens_done. reflexivity. }
      rewrite app_nil_r in H. exact H.
  - destruct (is_space c) eqn:Hc.
    + destruct cur as [|a cur]; simpl is_empty; cbv iota.
      * simpl. apply tokens_space_cons; [assumption|]. apply (IH []). reflexivity.
      * apply (tokens_word [] (tok := rev (a :: cur)) (rest := c :: text)).
        -- reflexivity.
        -- intros E. apply (f_equal (@length char)) in E.
           rewrite length_rev in E. discriminate.
        -- now rewrite forallb_rev.
        -- right. exact Hc.
        -- apply tokens_space_cons; [assumption|]. apply (IH []). reflexivity.
    + replace (rev cur ++ c :: text) with (rev (c :: cur) ++ text)
        by (simpl; now rewrite <- app_assoc).
      apply IH. simpl. now rewrite Hc.
Qed.

Lemma split_tokens (text : str) : tokens text (split text).
Proof. apply (split_from_tokens text []). reflexivity. Qed.

(** ** [re.split] and the segments *)

Lemma re_split_from_last (seg : str) : forall in_run cur,
  forallb (fun c => negb (is_terminator c)) seg = true ->
  re_split_from in_run cur seg = [rev cur ++ seg].
Proof.
  induction seg as [|c seg IH]; simpl; intros in_run cur H.
  - now rewrite app_nil_r.
  - apply andb_true_iff in H as [Hc Hseg]. apply negb_true_iff in Hc.
    rewrite Hc, IH by assumption. simpl. now rewrite <- app_assoc.
Qed.

Lemma re_split_from_enter (seg : str) : forall cur c rest,
  forallb (fun c => negb (is_terminator c)) seg = true ->
  is_terminator c = true ->
  re_split_from false cur (seg ++ c :: rest)
  = (rev cur ++ seg) :: re_split_from true [] rest.
Proof.
  induction seg as [|a seg IH]; simpl; intros cur c rest H Hc.
  - now rewrite Hc, app_nil_r.
  - apply andb_true_iff in H as [Ha Hseg]. apply negb_true_iff in Ha.
    rewrite Ha, IH by assumption. simpl. now rewrite <- app_assoc.
Qed.

Lemma re_split_from_run (run rest : str) :
  forallb is_terminator run = true ->
  re_split_from true [] (run ++ rest) = re_split_from true [] rest.
Proof.
  induction run as [|c run IH]; simpl; intros H; [reflexivity|].
  apply andb_true_iff in H as [Hc Hrun]. rewrite Hc. auto.
Qed.

Lemma re_split_from_leave (rest : str) :
  starts_with is_terminator rest = false ->
  re_split_from true [] rest = re_split_from false [] rest.
Proof.
  destruct rest as [|c rest]; simpl; intros H; [reflexivity|].
  now rewrite H.
Qed.

(** The segments of a text are unique: they are what [re.split] returns. *)
Lemma segments_re_split (text : str) (segs : list str) :
  segments text segs -> re_split text = segs.
Proof.
  unfold re_split.
  induction 1 as [seg Hseg | seg run rest segs Hseg Hne Hrun Hrest _ IH].
  - now rewrite re_split_from_last.
  - destruct run as [|c run]; [congruence|].
    simpl in Hrun. apply andb_true_iff in Hrun as [Hc Hrun].
    simpl. rewrite re_split_from_enter by assumption.
    rewrite re_split_from_run by assumption.
    rewrite re_split_from_leave by assumption.
    now rewrite IH.
Qed.

Lemma re_split_from_segments (text : str) :
  (forall cur,
      forallb (fun c => negb (is_terminator c)) cur = true ->
      segments (rev cur ++ text) (re_split_from false cur text))
  /\ (forall seg run,
      forallb (fun c => negb (is_terminator c)) seg = true ->
      run <> [] ->
      forallb is_terminator run = true ->
      segments (seg ++ run ++ text) (seg :: re_split_from true [] text)).
Proof.
  induction text as [|c text [IH1 IH2]]; split.
  - intros cur Hcur. simpl. rewrite app_nil_r.
    apply segments_last. now rewrite forallb_rev.
  - intros seg run Hseg Hne Hrun. simpl.
    apply segments_cut; try assumption; [reflexivity|].
    apply segments_last. reflexivity.
  - intros cur Hcur. simpl. destruct (is_terminator c) eqn:Hc.
    + apply (IH2 (rev cur) [c]).
      * now rewrite forallb_rev.
      * discriminate.
      * simpl. now rewrite Hc.
    + replace (rev cur ++ c :: text) with (rev (c :: cur) ++ text)
        by (simpl; now rewrite <- app_assoc).
      apply IH1. simpl. now rewrite Hc.
  - intros seg run Hseg Hne Hrun. simpl. destruct (is_terminator c) eqn:Hc.
    + replace (seg ++ run ++ c :: text) with (seg ++ (run ++ [c]) ++ text)
        by (now rewrite <- (app_assoc run)).
      apply IH2; try assumption.
      * destruct run; discriminate.
      * rewrite forallb_app, Hrun. simpl. now rewrite Hc.
    + apply segments_cut; try assumption.
      apply (IH1 [c]). simpl. now rewrite Hc.
Qed.

Lemma re_split_segments (text : str) : segments text (re_split text).
Proof. apply (proj1 (re_split_from_segments text) []). reflexivity. Qed.

(** ** The two tools *)

(** C4: [analyze_text] reports as [word_count] the number of
    whitespace-delimited tokens of the text (there is exactly one list of
    tokens, and [word_count] is its length) and as [char_count] the length
    of the text, whitespace included; the empty text gives 0 and 0, and
    the text [a b  c] gives 3 and 6. *)
Theorem analyze_text_counts (text : str) :
  (exists toks,
      tokens text toks
      /\ (forall toks', tokens text toks' -> toks' = toks)
      /\ word_count (analyze_text text) = length toks)
  /\ char_count (analyze_text text) = length text
  /\ analyze_text (lit "") = {| word_count := 0; char_count := 0 |}
  /\ analyze_text (lit "a b  c") = {| word_count := 3; char_count := 6 |}.
Proof.
  split; [|split; [reflexivity | split; reflexivity]].
  exists (split text). split; [apply split_tokens | split].
  - intros toks' H. symmetry. now apply tokens_split.
  - reflexivity.
Qed.

(** C3: [count_sentences] returns the number of segments that are
    non-empty after trimming whitespace, the segments being what is left
    of the text when every maximal run of the characters [.], [?] and [!]
    is cut out (there is exactly one such list of segments); a segment is
    non-empty after trimming exactly when it has a character that is not
    whitespace.  The three examples of the specification give 3, 0 and 1. *)
Theorem count_sentences_segments (text : str) :
  (exists segs,
      segments text segs
      /\ (forall segs', segments text segs' -> segs' = segs)
      /\ count_sentences text
         = length (filter (fun s => truthy (strip s)) segs)
      /\ count_sentences text = length (filter nonblank segs))
  /\ count_sentences (lit "Hello. How are you? Fine!") = 3
  /\ count_sentences (lit "...") = 0
  /\ count_sentences (lit "No terminator") = 1.
Proof.
  split; [|split; [reflexivity | split; reflexivity]].
  exists (re_split text). split; [apply re_split_segments | split; [|split]].
  - intros segs' H. symmetry. now apply segments_re_split.
  - reflexivity.
  - unfold count_sentences. f_equal. apply filter_ext. apply strip_truthy.
Qed.

End ServerFacts.

(* ================================================================== *)
(** * Part IV: properties of client.py *)
(* ================================================================== *)

Module TranslatorFacts.
Import Py.
Import mcp_types (Tool, inputSchema).
Import Client Stated Scenario.
Local Open Scope string_scope.

(** The chain of comparisons is the lookup of the specification. *)
Lemma param_type_of_lookup (schema_type : option json) :
  param_type_of schema_type = mapped_type schema_type.
Proof.
  destruct schema_type as [[]|]; try reflexivity.
  unfold param_type_of, mapped_type, dict_get, type_lookup, str_eq. simpl.
  repeat match goal with
         | |- context [String.eqb ?a ?b] => destruct (String.eqb a b); try reflexivity
         end.
Qed.

Lemma prop_definition_parameter (schema : pydict) :
  prop_definition schema = parameter (JDict schema).
Proof.
  unfold prop_definition, parameter, dict_get.
  now rewrite param_type_of_lookup.
Qed.

Lemma dict_set_fresh {V} (k : string) (v : V) (d : dict V) :
  ~ In k (keys d) -> dict_set k v d = (d ++ [(k, v)])%list.
Proof.
  induction d as [|[k' v'] d IH]; simpl; intros H; [reflexivity|].
  destruct (String.eqb_spec k k') as [->|_].
  - exfalso. apply H. now left.
  - rewrite IH; [reflexivity|]. intros Hin. apply H. now right.
Qed.

(** On a well-formed [dict] of [dict]s the loop is a [map]. *)
Lemma translate_items_map (items : pydict) : forall properties,
  NoDup (keys properties ++ keys items) ->
  forallb is_dict (map snd items) = true ->
  translate_items items properties
  = Ok (properties ++ map (fun p => (fst p, parameter (snd p))) items)%list.
Proof.
  induction items as [|[name schema] items IH]; simpl; intros properties Hnd Hd.
  - now rewrite app_nil_r.
  - apply andb_true_iff in Hd as [Hs Hd].
    destruct schema; try discriminate.
    assert (Hfresh : ~ In name (keys properties)).
    { intros Hin. apply NoDup_remove_2 in Hnd. apply Hnd.
      apply in_or_app. now left. }
    rewrite dict_set_fresh by assumption.
    rewrite IH.
    + rewrite <- app_assoc. simpl. now rewrite prop_definition_parameter.
    + unfold keys in *. rewrite map_app. simpl. rewrite <- app_assoc. exact Hnd.
    + assumption.
Qed.

(** A parameter schema that is not a [dict] makes the translator raise. *)
Lemma translator_raises_on_boolean_schema :
  mcp_tool_to_gemini_function schema_refused boolean_schema_tool
  = Raise (Exn AttributeError "'bool' object has no attribute 'get'").
Proof. reflexivity. Qed.

(** A parameter description that is not a [str] gets through the
    translator and is refused by the constructor. *)
Lemma constructor_refuses_numeric_description :
  parameters_ok numeric_description_tool
  /\ mcp_tool_to_gemini_function schema_refused numeric_description_tool
     = Raise bad_schema.
Proof.
  split; [|reflexivity]. split; [|reflexivity]. repeat constructor. intros [].
Qed.

(** The required list of a schema without ['properties'] is not handed
    on: the declaration gets the empty list. *)
Lemma required_list_dropped :
  option_map (dict_lookup "required") (inputSchema bare_required_tool)
  = Some (Some (JList [JStr "text"]))
  /\ mcp_tool_to_gemini_function schema_refused bare_required_tool
     = Ok {| genai.name := "ping";
             genai.description := "";
             genai.parameters :=
               JDict [("type", JStr "OBJECT");
                      ("properties", JDict []);
                      ("required", JList [])] |}.
Proof. split; reflexivity. Qed.

(** What the translator gives the constructor, on a descriptor whose
    ['properties'] entry, if any, is a [dict] of [dict]s. *)
Lemma translator_declares (refused : genai.refusal) (mcp_tool : Tool) :
  parameters_ok mcp_tool ->
  mcp_tool_to_gemini_function refused mcp_tool
  = genai.new_FunctionDeclaration refused
      (genai.name (declaration mcp_tool))
      (genai.description (declaration mcp_tool))
      (genai.parameters (declaration mcp_tool)).
Proof.
  unfold parameters_ok, declaration, declared_parameters, required_list, declared,
    mcp_tool_to_gemini_function, declare, dict_contains, dict_get, or_empty.
  cbn [genai.name genai.description genai.parameters].
  destruct (inputSchema mcp_tool) as [schema|]; [|reflexivity].
  destruct (dict_lookup "properties" schema) as [props|] eqn:E.
  - destruct schema as [|entry schema]; [discriminate|].
    cbn [dict_truthy andb].
    destruct props; try contradiction. intros [Hwf Hd].
    rewrite (translate_items_map entries []); try assumption.
    reflexivity.
  - intros _. now rewrite andb_false_r.
Qed.

(** C1, as the code has it: on every descriptor whose ['properties']
    entry, if any, is a [dict] of [dict]s, the translator raises nothing
    of its own: it calls the constructor of [FunctionDeclaration] and
    returns what the constructor returns, so that an error can only be
    one the constructor raises.  The constructor is given the name of the
    tool, its description (empty if missing) and, for each declared
    parameter in order, the type the fixed lookup gives (STRING for an
    unmapped or missing type) and the description (empty if missing).
    The required list is that of the schema when the schema has a
    ['properties'] entry and a required list, and the empty list
    otherwise. *)
Theorem translator_total (refused : genai.refusal) (mcp_tool : Tool) :
  let fd := declaration mcp_tool in
  let check :=
    refused (genai.name fd) (genai.description fd) (genai.parameters fd) in
  parameters_ok mcp_tool ->
  (check = None -> mcp_tool_to_gemini_function refused mcp_tool = Ok fd)
  /\ (forall e, check = Some e ->
                mcp_tool_to_gemini_function refused mcp_tool = Raise e)
  /\ (forall e, mcp_tool_to_gemini_function refused mcp_tool = Raise e ->
                check = Some e).
Proof.
  intros fd check Hok. subst fd check.
  rewrite (translator_declares refused mcp_tool Hok).
  unfold genai.new_FunctionDeclaration.
  destruct (refused _ _ _) as [e|].
  - split; [discriminate|]. split; intros e' H; now inversion H.
  - split; [|split; discriminate].
    intros _. now destruct (declaration mcp_tool).
Qed.

(** The descriptors of [server.py] are translated, with [text] required. *)
Lemma translator_total_on_server :
  parameters_ok count_sentences_tool
  /\ mcp_tool_to_gemini_function schema_refused count_sentences_tool
     = Ok (declaration count_sentences_tool).
Proof.
  assert (H : parameters_ok count_sentences_tool).
  { split; [|reflexivity]. repeat constructor. intros []. }
  split; [exact H|].
  exact (proj1 (translator_total schema_refused count_sentences_tool H) eq_refl).
Defined.

End TranslatorFacts.

Module OrchestratorFacts.
Import Py.
Import mcp_types (Tool, inputSchema, Content, TextContent, ImageContent,
                  EmbeddedResource, CallToolResult, content, isError).
Import genai (FunctionDeclaration, GeminiTool, function_declarations).
Import protos (FunctionCall, args, Part, function_call, text,
               GenerateContentResponse, parts, prompt_feedback).
Import Client Scenario.
Local Open Scope string_scope.
Local Open Scope list_scope.

(** ** Reading events *)

Lemma inputs_read_app (evs evs' : list event) :
  inputs_read (evs ++ evs') = inputs_read evs ++ inputs_read evs'.
Proof.
  induction evs as [|e evs IH]; [reflexivity|]. simpl.
  destruct (input_of e); simpl; now rewrite IH.
Qed.

Lemma tools_sent_app (evs evs' : list event) :
  tools_sent (evs ++ evs') = tools_sent evs ++ tools_sent evs'.
Proof.
  induction evs as [|e evs IH]; [reflexivity|].
  destruct e; simpl; now rewrite IH.
Qed.

(** ** One turn *)

Arguments tools_argument : simpl never.
Arguments result_content_str : simpl never.

(** Unfolding a turn down to the answers of the collaborators. *)
Ltac unfold_turn :=
  unfold process_query, dispatch, report_feedback, send_message, print, emit,
    ask, bind, try_except, ret, get_response, set_response; simpl.

Ltac split_cases :=
  repeat match goal with
         | |- context [match ?x with _ => _ end] =>
             lazymatch x with
             | context [match _ with _ => _ end] => fail
             | _ => destruct x eqn:?; simpl
             end
         end.

(** Whatever the collaborators answer, a turn ends normally; it reads no
    input, calls the tool at most once, sends at most one tool result,
    begins with the model call for the query, and gives every model call
    the same [tools] argument. *)
Lemma process_query_shape (env : Env) (mcp_session : option ClientSession)
    (gemini_tools_list : list GeminiTool) (user_query : string)
    (past : list event) (response : locals) :
  let turn := process_query env mcp_session gemini_tools_list user_query past response in
  let evs := snd (fst turn) in
  fst (fst turn) = Ok tt
  /\ inputs_read evs = []
  /\ length (filter is_call_tool evs) <= 1
  /\ length (filter is_function_response evs) <= 1
  /\ Forall (eq (tools_argument gemini_tools_list)) (tools_sent evs)
  /\ exists rest,
      evs = sending_query
            :: SendMessage (UserText user_query) (tools_argument gemini_tools_list)
            :: rest.
Proof.
  unfold_turn. split_cases;
    repeat split; simpl; auto; try lia; eauto.
Qed.

(** The turn in which the model asks for a tool, event by event. *)
Lemma process_query_tool_path (env : Env) (gemini_tools_list : list GeminiTool)
    (user_query : string) (past : list event) (response : locals)
    (response1 : GenerateContentResponse) (part : Part) (others : list Part)
    (fc : FunctionCall) :
  let tools := tools_argument gemini_tools_list in
  let before := past ++ up_to_tool_call user_query tools fc in
  send_message_async env (past ++ [sending_query]) (UserText user_query) tools
  = Ok response1 ->
  parts response1 = part :: others ->
  function_call part = Some fc ->
  snd (fst (process_query env (Some session) gemini_tools_list user_query past response))
  = up_to_tool_call user_query tools fc
    ++ tool_call fc
    :: match call_tool env before (protos.name fc) (args fc) with
       | Raise e => tool_error_report fc e
       | Ok r =>
           match result_content_str env r with
           | Raise e => tool_error_report fc e
           | Ok payload =>
               relay tools fc r payload
               ++ match send_message_async env
                          (before ++ [tool_call fc;
                                      Print (LogToolResult (isError r) payload);
                                      sending_result])
                          (FunctionResponse (protos.name fc) payload)
                          tools with
                  | Ok response2 => [Print (final_line response2)]
                  | Raise e => tool_error_report fc e
                  end
           end
       end.
Proof.
  intros tools before H1 Hparts Hfc. subst tools before.
  unfold_turn. unfold lift. unfold sending_query in H1. rewrite H1. simpl.
  rewrite Hparts. simpl. rewrite Hfc. simpl.
  repeat rewrite <- app_assoc. simpl.
  unfold up_to_tool_call, sending_query, tool_call, relay, sending_result,
    tool_error_report. simpl.
  destruct (call_tool env _ _ _) as [r|e]; simpl; [|reflexivity].
  destruct (result_content_str env r) as [payload|e]; simpl; [|reflexivity].
  repeat rewrite <- app_assoc. simpl.
  match goal with
  | |- context [send_message_async env ?h ?m ?t] =>
      destruct (send_message_async env h m t) as [response2|e]; simpl; [|reflexivity]
  end.
  unfold final_line. destruct (parts response2) as [|p ps]; simpl; [reflexivity|].
  destruct (str_truthy (text p)); reflexivity.
Qed.

(** The turn in which the first model call raises. *)
Lemma process_query_model_error (env : Env) (mcp_session : option ClientSession)
    (gemini_tools_list : list GeminiTool) (user_query : string)
    (past : list event) (response : locals) (e : exn) :
  let tools := tools_argument gemini_tools_list in
  send_message_async env (past ++ [sending_query]) (UserText user_query) tools
  = Raise e ->
  snd (fst (process_query env mcp_session gemini_tools_list user_query past response))
  = [sending_query; SendMessage (UserText user_query) tools]
    ++ model_error_report response e.
Proof.
  intros tools H. subst tools. unfold_turn. unfold sending_query in H.
  rewrite H. simpl. unfold model_error_report.
  destruct response as [r|]; simpl; [|reflexivity].
  destruct (prompt_feedback r); reflexivity.
Qed.

(** ** The loop *)

Lemma chat_loop_shape (env : Env) (mcp_session : option ClientSession)
    (gemini_tools_list : list GeminiTool) (inputs : list string) :
  forall (past : list event) (response : locals),
  let run := chat_loop env mcp_session gemini_tools_list inputs past response in
  let evs := snd (fst run) in
  fst (fst run) = (if existsb is_quit inputs then Ok tt else Raise end_of_input)
  /\ inputs_read evs = until_quit inputs
  /\ Forall (eq (tools_argument gemini_tools_list)) (tools_sent evs)
  /\ (forall q,
        In q (until_quit inputs) -> is_quit q = false -> str_truthy q = true ->
        In (SendMessage (UserText q) (tools_argument gemini_tools_list)) evs).
Proof.
  induction inputs as [|user_query inputs IH]; intros past response.
  - simpl. repeat split; auto; intros q [].
  - cbn [chat_loop until_quit existsb]. fold (is_quit user_query).
    destruct (is_quit user_query) eqn:Hquit.
    + unfold bind, emit, ret. simpl. repeat split; auto.
      intros q [<-|[]] Hq. congruence.
    + cbn [orb].
      destruct (str_truthy user_query) eqn:Hne; cbn [negb]; unfold bind, emit;
        cbn [app].
      * pose proof (process_query_shape env mcp_session gemini_tools_list user_query
                      (past ++ [Input user_query]) response) as Hturn.
        destruct (process_query env mcp_session gemini_tools_list user_query
                    (past ++ [Input user_query]) response) as [[r1 evs1] response1].
        cbn [fst snd] in Hturn.
        destruct Hturn as (-> & Hin & _ & _ & Htools & rest & Hevs).
        specialize (IH ((past ++ [Input user_query]) ++ evs1) response1).
        destruct (chat_loop env mcp_session gemini_tools_list inputs
                    ((past ++ [Input user_query]) ++ evs1) response1)
          as [[r evs] response2].
        cbn [fst snd] in IH |- *. destruct IH as (Hr & Hread & Hsent & Hsends).
        split; [exact Hr|]. split; [|split].
        -- simpl. rewrite inputs_read_app, Hin, Hread. reflexivity.
        -- change (tools_sent (Input user_query :: evs1 ++ evs))
             with (tools_sent (evs1 ++ evs)).
           rewrite tools_sent_app. apply Forall_app. now split.
        -- intros q [<-|Hq] Hnq Htruthy.
           ++ subst evs1. simpl. auto.
           ++ simpl. right. apply in_or_app. right. now apply Hsends.
      * specialize (IH (past ++ [Input user_query]) response).
        destruct (chat_loop env mcp_session gemini_tools_list inputs
                    (past ++ [Input user_query]) response)
          as [[r evs] response2].
        cbn [fst snd] in IH |- *. destruct IH as (Hr & Hread & Hsent & Hsends).
        split; [exact Hr|]. split; [|split].
        -- simpl. now rewrite Hread.
        -- exact Hsent.
        -- intros q [<-|Hq] Hnq Htruthy; [congruence|].
           simpl. right. now apply Hsends.
Qed.

(** ** The session *)

(** The session after [list_tools] raised: the loop runs with no tools. *)
Lemma main_after_failed_listing (env : Env) (server_script_path : string)
    (inputs : list string) (e : exn) :
  stdio_client env server_script_path = Ok tt ->
  initialize env = Ok tt ->
  list_tools env = Raise e ->
  let start :=
    connected server_script_path
    ++ [Print (LogListError e);
        Print (Log "[Client] No tools discovered or converted for Gemini.")]
    ++ ready in
  let loop := chat_loop env (Some session) [] inputs start None in
  events (main env server_script_path inputs)
  = start ++ snd (fst loop)
    ++ closing server_script_path (in_task_group (fst (fst loop))).
Proof.
  intros Hc Hi Hl start loop. subst start loop.
  unfold events, main, discover_tools, convert_tools, lift, try_finally,
    try_except, async_with, bind, ask, print, emit, ret.
  rewrite Hc, Hi, Hl. simpl.
  destruct (chat_loop env (Some session) [] inputs _ None) as [[[u|e'] evs] response];
    simpl; unfold closing; simpl; rewrite <- ?app_assoc; reflexivity.
Qed.

(** The session after [list_tools] returned no tool. *)
Lemma main_with_no_tools (env : Env) (server_script_path : string)
    (inputs : list string) :
  stdio_client env server_script_path = Ok tt ->
  initialize env = Ok tt ->
  list_tools env = Ok [] ->
  let start :=
    connected server_script_path
    ++ [Print (Log "[Client] No tools discovered from this server.");
        Print (Log "[Client] No tools discovered or converted for Gemini.")]
    ++ ready in
  let loop := chat_loop env (Some session) [] inputs start None in
  events (main env server_script_path inputs)
  = start ++ snd (fst loop)
    ++ closing server_script_path (in_task_group (fst (fst loop))).
Proof.
  intros Hc Hi Hl start loop. subst start loop.
  unfold events, main, discover_tools, convert_tools, lift, try_finally,
    try_except, async_with, bind, ask, print, emit, ret.
  rewrite Hc, Hi, Hl. simpl.
  destruct (chat_loop env (Some session) [] inputs _ None) as [[[u|e'] evs] response];
    simpl; unfold closing; simpl; rewrite <- ?app_assoc; reflexivity.
Qed.

Lemma closing_quiet (server_script_path : string) (r : result unit) :
  inputs_read (closing server_script_path r) = []
  /\ tools_sent (closing server_script_path r) = [].
Proof.
  unfold closing. destruct r as [u|e]; [now split|].
  destruct (exn_class e); now split.
Qed.

(** ** The claims about the tool round trip *)

Lemma final_line_no_apology (response2 : GenerateContentResponse) :
  Print (final_line response2) <> Print tool_apology.
Proof.
  unfold final_line. destruct (parts response2) as [|p ps]; [discriminate|].
  destruct (str_truthy (text p)); discriminate.
Qed.

(** C2, as the code has it: in a turn in which the model asks for a
    tool, the apology is printed, and the second model call skipped, when
    the call of the tool raises, and also when the result it returns
    cannot be serialized (what [json.loads] raises other than
    [JSONDecodeError]).  A result that is returned and serialized, with
    the error flag or without it, is sent to the model in the second
    model call; when that call returns, the turn ends with the line for
    its response and no apology has been printed; when it raises, the
    exception is reported with the apology.  The turn ends normally in
    every case. *)
Theorem tool_failure_paths (env : Env) (gemini_tools_list : list GeminiTool)
    (user_query : string) (past : list event) (response : locals)
    (response1 : GenerateContentResponse) (part : Part) (others : list Part)
    (fc : FunctionCall) :
  let tools := tools_argument gemini_tools_list in
  let before := past ++ up_to_tool_call user_query tools fc in
  let turn := process_query env (Some session) gemini_tools_list user_query past response in
  let evs := snd (fst turn) in
  send_message_async env (past ++ [sending_query]) (UserText user_query) tools
  = Ok response1 ->
  parts response1 = part :: others ->
  function_call part = Some fc ->
  fst (fst turn) = Ok tt
  /\ (forall e,
        call_tool env before (protos.name fc) (args fc) = Raise e ->
        evs = up_to_tool_call user_query tools fc
              ++ tool_call fc :: tool_error_report fc e)
  /\ (forall r e,
        call_tool env before (protos.name fc) (args fc) = Ok r ->
        result_content_str env r = Raise e ->
        evs = up_to_tool_call user_query tools fc
              ++ tool_call fc :: tool_error_report fc e)
  /\ (forall r payload,
        call_tool env before (protos.name fc) (args fc) = Ok r ->
        result_content_str env r = Ok payload ->
        let second :=
          send_message_async env
            (before ++ [tool_call fc;
                        Print (LogToolResult (isError r) payload);
                        sending_result])
            (FunctionResponse (protos.name fc) payload) tools in
        (forall response2,
            second = Ok response2 ->
            evs = up_to_tool_call user_query tools fc
                  ++ tool_call fc :: relay tools fc r payload
                  ++ [Print (final_line response2)]
            /\ ~ In (Print tool_apology) evs)
        /\ (forall e,
            second = Raise e ->
            evs = up_to_tool_call user_query tools fc
                  ++ tool_call fc :: relay tools fc r payload
                  ++ tool_error_report fc e)).
Proof.
  intros tools before turn evs H1 H2 H3.
  pose proof (@process_query_tool_path env gemini_tools_list user_query past response
                response1 part others fc) as P.
  cbv zeta in P. specialize (P H1 H2 H3). fold tools before turn evs in P.
  split; [apply process_query_shape|]. split; [|split].
  - intros e He. rewrite He in P. exact P.
  - intros r e Hr He. rewrite Hr, He in P. exact P.
  - intros r payload Hr Hp second. subst second. rewrite Hr, Hp in P. split.
    + intros response2 H5. rewrite H5 in P. split; [exact P|].
      rewrite P. unfold up_to_tool_call, tool_call, relay, sending_query,
        sending_result. simpl.
      intros H. repeat (destruct H as [H|H]; [try discriminate H|]).
      * now apply (final_line_no_apology response2).
      * exact H.
    + intros e H5. rewrite H5 in P. exact P.
Qed.

(** A host that cannot be reached: the apology, and no second model
    call.  A host that answers with the error flag and nothing else: the
    second model call, and no apology. *)
Lemma tool_failure_paths_demo :
  snd (fst (process_query with_unreachable_host (Some session) [] "How many?" [] None))
  = up_to_tool_call "How many?" None (asked "count_sentences")
    ++ tool_call (asked "count_sentences")
    :: tool_error_report (asked "count_sentences") closed
  /\ ~ In (Print tool_apology)
         (snd (fst (process_query with_silent_failure (Some session) []
                      "How many?" [] None))).
Proof.
  split.
  - apply (proj1 (proj2 (@tool_failure_paths with_unreachable_host [] "How many?" []
                           None _ (asks_for "count_sentences" "Hi. Bye!") []
                           (asked "count_sentences") eq_refl eq_refl eq_refl))).
    reflexivity.
  - apply (proj1 (proj2 (proj2 (proj2
             (@tool_failure_paths with_silent_failure [] "How many?" []
                None _ (asks_for "count_sentences" "Hi. Bye!") []
                (asked "count_sentences") eq_refl eq_refl eq_refl)))
             {| content := []; isError := true |} failed_on_server
             eq_refl eq_refl)
             {| parts := [says "The tool says: Tool execution failed on server."];
                prompt_feedback := None |}).
    reflexivity.
Defined.

(** A host that answers with the error flag and nothing else: the result
    is sent to the model all the same, and no apology is printed. *)
Lemma error_flag_reaches_model :
  call_tool with_silent_failure
    (up_to_tool_call "How many?" None (asked "count_sentences"))
    "count_sentences" (args (asked "count_sentences"))
  = Ok {| content := []; isError := true |}
  /\ process_query with_silent_failure (Some session) [] "How many?" [] None
     = (Ok tt,
        [sending_query;
         SendMessage (UserText "How many?") None;
         Print (LogToolRequest "count_sentences" [("text", JStr "Hi. Bye!")]);
         Print (LogCallingTool "count_sentences");
         CallTool "count_sentences" [("text", JStr "Hi. Bye!")];
         Print (LogToolResult true "Tool execution failed on server.");
         sending_result;
         SendMessage
           (FunctionResponse "count_sentences" "Tool execution failed on server.")
           None;
         Print (LlmResponse "The tool says: Tool execution failed on server.")],
        Some {| parts := [says "The tool says: Tool execution failed on server."];
                prompt_feedback := None |}).
Proof. split; reflexivity. Qed.

(** C5, as the code has it: what the function response carries is
    derived from the first content item of the tool result.  A text that
    parses as JSON is pretty-printed; a text that does not parse is
    passed on as it is; a first item that is not text gives the string
    [Error: Tool executed but no parsable content returned.].  The error
    flag changes nothing of this: it counts only for a result with no
    content, which gives [Tool execution failed on server.] with the flag
    and the other fixed string without it.  When [json.loads] raises
    something other than [JSONDecodeError], nothing is sent: the turn
    ends with the report of the exception and the apology. *)
Theorem payload_policy (env : Env) (gemini_tools_list : list GeminiTool)
    (user_query : string) (past : list event) (response : locals)
    (response1 : GenerateContentResponse) (part : Part) (others : list Part)
    (fc : FunctionCall) (r : CallToolResult) :
  let tools := tools_argument gemini_tools_list in
  let before := past ++ up_to_tool_call user_query tools fc in
  let evs :=
    snd (fst (process_query env (Some session) gemini_tools_list user_query
                past response)) in
  send_message_async env (past ++ [sending_query]) (UserText user_query) tools
  = Ok response1 ->
  parts response1 = part :: others ->
  function_call part = Some fc ->
  call_tool env before (protos.name fc) (args fc) = Ok r ->
  (forall payload,
      result_content_str env r = Ok payload ->
      In (SendMessage (FunctionResponse (protos.name fc) payload) tools) evs)
  /\ (forall e,
        result_content_str env r = Raise e ->
        evs = up_to_tool_call user_query tools fc
              ++ tool_call fc :: tool_error_report fc e)
  /\ (forall t items parsed,
        content r = TextContent t :: items ->
        json_loads env t = Ok parsed ->
        result_content_str env r = Ok (json_dumps env parsed))
  /\ (forall t items e,
        content r = TextContent t :: items ->
        json_loads env t = Raise e ->
        result_content_str env r
        = match exn_class e with
          | JSONDecodeError => Ok t
          | _ => Raise e
          end)
  /\ (forall first items,
        content r = first :: items ->
        (forall t, first <> TextContent t) ->
        result_content_str env r = Ok no_parsable_content)
  /\ (content r = [] ->
      result_content_str env r
      = Ok (if isError r then failed_on_server else no_parsable_content))
  /\ (forall flag,
        content r <> [] ->
        result_content_str env {| content := content r; isError := flag |}
        = result_content_str env r).
Proof.
  intros tools before evs H1 H2 H3 H4.
  pose proof (@process_query_tool_path env gemini_tools_list user_query past response
                response1 part others fc) as P.
  cbv zeta in P. specialize (P H1 H2 H3). fold tools before evs in P.
  rewrite H4 in P. repeat split.
  - intros payload Hp. rewrite Hp in P. rewrite P.
    apply in_or_app. right. right. apply in_or_app. left.
    unfold relay. simpl. auto.
  - intros e He. rewrite He in P. exact P.
  - intros t items parsed Hc Hj. unfold result_content_str. now rewrite Hc, Hj.
  - intros t items e Hc Hj. unfold result_content_str. rewrite Hc, Hj.
    destruct (exn_class e); reflexivity.
  - intros first items Hc Hnt. unfold result_content_str. rewrite Hc.
    destruct first as [t| |]; [now elim (Hnt t) | reflexivity | reflexivity].
  - intros Hc. unfold result_content_str. now rewrite Hc.
  - intros flag Hc. unfold result_content_str. simpl.
    destruct (content r) as [|first items]; [congruence | reflexivity].
Qed.

(** A host that answers with the text [[3, 6]]: it parses, and goes to
    the model over four lines. *)
Lemma payload_policy_demo :
  call_tool with_pair_host (up_to_tool_call "How many?" None (asked "analyze_text"))
    "analyze_text" (args (asked "analyze_text"))
  = Ok {| content := [TextContent "[3, 6]"]; isError := false |}
  /\ In (SendMessage
          (FunctionResponse "analyze_text"
             ("[" ++ newline ++ "  3," ++ newline ++ "  6" ++ newline ++ "]"))
          None)
        (snd (fst (process_query with_pair_host (Some session) [] "How many?" [] None))).
Proof.
  split; [reflexivity|].
  apply (proj1 (@payload_policy with_pair_host [] "How many?" [] None
                  _ (asks_for "analyze_text" "Hi. Bye!") []
                  (asked "analyze_text") _ eq_refl eq_refl eq_refl eq_refl)).
  reflexivity.
Defined.

(** A failed invocation whose result has a text: the text is what the
    model is sent, not the fixed string. *)
Lemma failed_invocation_keeps_its_text :
  call_tool with_unknown_tool
    (up_to_tool_call "How many?" None (asked "word_cloud"))
    "word_cloud" (args (asked "word_cloud"))
  = Ok {| content := [TextContent "Unknown tool: word_cloud"]; isError := true |}
  /\ result_content_str with_unknown_tool
       {| content := [TextContent "Unknown tool: word_cloud"]; isError := true |}
     = Ok "Unknown tool: word_cloud"
  /\ snd (fst (process_query with_unknown_tool (Some session) [] "How many?" [] None))
     = [sending_query;
        SendMessage (UserText "How many?") None;
        Print (LogToolRequest "word_cloud" [("text", JStr "Hi. Bye!")]);
        Print (LogCallingTool "word_cloud");
        CallTool "word_cloud" [("text", JStr "Hi. Bye!")];
        Print (LogToolResult true "Unknown tool: word_cloud");
        sending_result;
        SendMessage (FunctionResponse "word_cloud" "Unknown tool: word_cloud") None;
        Print (LlmResponse "The tool says: Unknown tool: word_cloud")].
Proof. repeat split; reflexivity. Qed.

(** A failed invocation whose result is a picture, and a text of too
    many digits: the first is sent as the string for no parsable content,
    the second is not sent at all. *)
Lemma payload_edge_cases :
  result_content_str with_picture_failure
    {| content := [ImageContent "iVBORw0KGgo=" "image/png"]; isError := true |}
  = Ok no_parsable_content
  /\ snd (fst (process_query with_long_number (Some session) [] "How many?" [] None))
     = up_to_tool_call "How many?" None (asked "count_sentences")
       ++ tool_call (asked "count_sentences")
       :: tool_error_report (asked "count_sentences") too_many_digits.
Proof. split; [reflexivity | vm_compute; reflexivity]. Qed.



(** C8: a turn calls the tool at most once and sends at most one tool
    result to the model.  When the second model call returns, the turn
    ends with one line, the text of the first part of the response or
    the notice that there is no final response, whether or not that part
    asks for another tool call.  When the result of the tool cannot be
    serialized, there is no second model call at all. *)
Theorem single_round_trip (env : Env) (mcp_session : option ClientSession)
    (gemini_tools_list : list GeminiTool) (user_query : string)
    (past : list event) (response : locals) :
  let tools := tools_argument gemini_tools_list in
  let evs :=
    snd (fst (process_query env mcp_session gemini_tools_list user_query past response)) in
  length (filter is_call_tool evs) <= 1
  /\ length (filter is_function_response evs) <= 1
  /\ (forall response1 part others fc r payload response2,
        mcp_session = Some session ->
        send_message_async env (past ++ [sending_query]) (UserText user_query) tools
        = Ok response1 ->
        parts response1 = part :: others ->
        function_call part = Some fc ->
        call_tool env (past ++ up_to_tool_call user_query tools fc)
          (protos.name fc) (args fc) = Ok r ->
        result_content_str env r = Ok payload ->
        send_message_async env
          (past ++ up_to_tool_call user_query tools fc
                ++ [tool_call fc;
                    Print (LogToolResult (isError r) payload);
                    sending_result])
          (FunctionResponse (protos.name fc) payload) tools
        = Ok response2 ->
        evs = up_to_tool_call user_query tools fc
              ++ tool_call fc :: relay tools fc r payload
              ++ [Print (final_line response2)]
        /\ (final_line response2 = no_final_response
            \/ exists p ps,
                parts response2 = p :: ps
                /\ final_line response2 = LlmResponse (text p)))
  /\ (forall response1 part others fc r e,
        mcp_session = Some session ->
        send_message_async env (past ++ [sending_query]) (UserText user_query) tools
        = Ok response1 ->
        parts response1 = part :: others ->
        function_call part = Some fc ->
        call_tool env (past ++ up_to_tool_call user_query tools fc)
          (protos.name fc) (args fc) = Ok r ->
        result_content_str env r = Raise e ->
        evs = up_to_tool_call user_query tools fc
              ++ tool_call fc :: tool_error_report fc e).
Proof.
  intros tools evs.
  pose proof (process_query_shape env mcp_session gemini_tools_list user_query
                past response) as S.
  cbv zeta in S. destruct S as (_ & _ & Hcalls & Hsent & _).
  split; [exact Hcalls | split; [exact Hsent|]].
  split.
  - intros response1 part others fc r payload response2 -> H1 H2 H3 H4 Hp H5.
    pose proof (@process_query_tool_path env gemini_tools_list user_query past response
                  response1 part others fc) as P.
    cbv zeta in P. specialize (P H1 H2 H3). fold tools in P.
    rewrite H4, Hp in P. rewrite <- app_assoc in P. fold tools in H5.
    rewrite H5 in P.
    split; [exact P|].
    unfold final_line. destruct (parts response2) as [|p ps]; [now left|].
    destruct (str_truthy (text p)); [right; now exists p, ps | now left].
  - intros response1 part others fc r e -> H1 H2 H3 H4 Hp.
    pose proof (@process_query_tool_path env gemini_tools_list user_query past response
                  response1 part others fc) as P.
    cbv zeta in P. specialize (P H1 H2 H3). fold tools in P.
    now rewrite H4, Hp in P.
Qed.

(** A model that answers the tool result by asking for the tool again:
    the tool is called once, and the turn ends with the notice. *)
Lemma single_round_trip_insistent :
  final_line {| parts := [asks_for "count_sentences" "Hi. Bye!"]; prompt_feedback := None |}
  = no_final_response
  /\ snd (fst (process_query with_insistent_model (Some session) [] "How many?" [] None))
     = up_to_tool_call "How many?" None (asked "count_sentences")
       ++ tool_call (asked "count_sentences")
       :: relay None (asked "count_sentences")
            {| content := [TextContent "2"]; isError := false |} "2"
       ++ [Print no_final_response].
Proof.
  split; [reflexivity|].
  apply (proj1 (proj1 (proj2 (proj2 (single_round_trip with_insistent_model
                                       (Some session) [] "How many?" [] None)))
                  _ (asks_for "count_sentences" "Hi. Bye!") []
                  (asked "count_sentences") _ _ _
                  eq_refl eq_refl eq_refl eq_refl eq_refl eq_refl eq_refl)).
Defined.

(** ** The claims about the session *)

(** C9: when listing the tools raises, the error is printed and the
    session goes on with the empty tool set: the loop is run with no
    tools, every model call is made without declarations, and the lines
    of the input are read up to the first quit command as in any other
    session. *)
Theorem enumeration_failure_degrades (env : Env) (server_script_path : string)
    (inputs : list string) (e : exn) :
  let evs := events (main env server_script_path inputs) in
  stdio_client env server_script_path = Ok tt ->
  initialize env = Ok tt ->
  list_tools env = Raise e ->
  In (Print (LogListError e)) evs
  /\ (exists start,
        let loop := chat_loop env (Some session) [] inputs start None in
        evs = start ++ snd (fst loop)
              ++ closing server_script_path (in_task_group (fst (fst loop))))
  /\ inputs_read evs = until_quit inputs
  /\ Forall (eq None) (tools_sent evs)
  /\ (forall q,
        In q (until_quit inputs) -> is_quit q = false -> str_truthy q = true ->
        In (SendMessage (UserText q) None) evs).
Proof.
  intros evs Hc Hi Hl. subst evs.
  pose proof (@main_after_failed_listing env server_script_path inputs e Hc Hi Hl) as E.
  cbv zeta in E. rewrite E. clear E.
  set (start := connected server_script_path ++ _ ++ ready).
  pose proof (chat_loop_shape env (Some session) [] inputs start None) as L.
  cbv zeta in L. destruct L as (_ & Hread & Hsent & Hsends).
  destruct (closing_quiet server_script_path
              (in_task_group
                 (fst (fst (chat_loop env (Some session) [] inputs start None)))))
    as [Hq1 Hq2].
  split; [|split; [|split; [|split]]].
  - apply in_or_app. left. subst start. apply in_or_app. right. now left.
  - exists start. reflexivity.
  - rewrite !inputs_read_app, Hread, Hq1. subst start. simpl. now rewrite app_nil_r.
  - rewrite !tools_sent_app, Hq2. subst start. simpl. rewrite app_nil_r. exact Hsent.
  - intros q H1 H2 H3. apply in_or_app. right. apply in_or_app. left.
    now apply Hsends.
Qed.

(** A session whose tools cannot be listed. *)
Lemma enumeration_failure_degrades_demo :
  inputs_read (events (main without_listing "server.py" ["How many?"; "quit"]))
  = ["How many?"; "quit"]
  /\ Forall (eq None)
        (tools_sent (events (main without_listing "server.py" ["How many?"; "quit"]))).
Proof.
  pose proof (@enumeration_failure_degrades without_listing "server.py"
                ["How many?"; "quit"] closed eq_refl eq_refl eq_refl)
    as (_ & _ & Hread & Hsent & _).
  split; [exact Hread | exact Hsent].
Defined.

(** C6: when the server lists no tool, every model call of the session
    is made with no declarations at all ([tools=None]), and so is the
    first model call of every query the loop reads; the [tools] argument
    is never a list that is present and empty. *)
Theorem no_tools_no_declarations (env : Env) (server_script_path : string)
    (inputs : list string) :
  let evs := events (main env server_script_path inputs) in
  stdio_client env server_script_path = Ok tt ->
  initialize env = Ok tt ->
  list_tools env = Ok [] ->
  Forall (eq None) (tools_sent evs)
  /\ (forall q,
        In q (until_quit inputs) -> is_quit q = false -> str_truthy q = true ->
        In (SendMessage (UserText q) None) evs)
  /\ (forall gemini_tools_list, tools_argument gemini_tools_list <> Some []).
Proof.
  intros evs Hc Hi Hl. subst evs.
  pose proof (@main_with_no_tools env server_script_path inputs Hc Hi Hl) as E.
  cbv zeta in E. rewrite E. clear E.
  set (start := connected server_script_path ++ _ ++ ready).
  pose proof (chat_loop_shape env (Some session) [] inputs start None) as L.
  cbv zeta in L. destruct L as (_ & _ & Hsent & Hsends).
  destruct (closing_quiet server_script_path
              (in_task_group
                 (fst (fst (chat_loop env (Some session) [] inputs start None)))))
    as [_ Hq2].
  split; [|split].
  - rewrite !tools_sent_app, Hq2. subst start. simpl. rewrite app_nil_r. exact Hsent.
  - intros q H1 H2 H3. apply in_or_app. right. apply in_or_app. left.
    now apply Hsends.
  - intros [|t l]; discriminate.
Qed.

(** A session with a server that has no tools. *)
Lemma no_tools_no_declarations_demo :
  In (SendMessage (UserText "Hello?") None)
     (events (main without_tools "server.py" ["Hello?"; "quit"])).
Proof.
  apply (proj1 (proj2 (@no_tools_no_declarations without_tools "server.py"
                         ["Hello?"; "quit"] eq_refl eq_refl eq_refl))).
  - simpl. now left.
  - reflexivity.
  - reflexivity.
Defined.

End OrchestratorFacts.

(* ================================================================== *)
(** * Part V: further properties of server.py *)
(* ================================================================== *)

Module ServerMore.
Import Server ServerFacts.

(** ** [analyze_text] *)

Lemma split_from_join (a b : str) (c : char) : forall cur,
  is_space c = true ->
  split_from cur (a ++ c :: b) = split_from cur a ++ split_from [] b.
Proof.
  induction a as [|x a IH]; intros cur Hc; simpl.
  - rewrite Hc. destruct cur; reflexivity.
  - destruct (is_space x).
    + destruct cur; simpl; now rewrite IH.
    + now apply IH.
Qed.

Lemma tokens_length (text : str) (toks : list str) :
  tokens text toks ->
  2 * length toks <= length text + 1
  /\ (text = [] \/ starts_with is_space text = true ->
      2 * length toks <= length text).
Proof.
  induction 1 as [ws Hws | ws tok rest toks Hws Htok Hns Hrest _ [_ IH]].
  - simpl. split; intros; lia.
  - specialize (IH Hrest). rewrite !length_app. simpl.
    assert (Hlen : 1 <= length tok) by (destruct tok; [congruence | simpl; lia]).
    split; [lia|].
    intros [E | E].
    + apply (f_equal (@length char)) in E. rewrite !length_app in E. simpl in E. lia.
    + destruct ws as [|w ws]; [|simpl; lia].
      destruct tok as [|t tok]; [congruence|]. simpl in E, Hns.
      rewrite E in Hns. discriminate.
Qed.

(** X1: [analyze_text] counts no word exactly when the text has no
    character other than whitespace (the empty text included). *)
Theorem no_word_iff_blank (text : str) :
  word_count (analyze_text text) = 0 <-> forallb is_space text = true.
Proof.
  simpl. split.
  - intros H. pose proof (split_tokens text) as T.
    destruct (split text) as [|tok toks]; [|discriminate].
    inversion T; subst; assumption.
  - intros H. rewrite (tokens_split (tokens_done text H)). reflexivity.
Qed.

(** X2: two words need a character between them: twice the word count
    is at most the character count plus one. *)
Theorem words_need_room (text : str) :
  2 * word_count (analyze_text text) <= char_count (analyze_text text) + 1.
Proof. simpl. apply (tokens_length (split_tokens text)). Qed.

(** X3: joining two texts with one whitespace character adds up their
    counts: the words of the whole are the words of the parts, and the
    character count is the sum plus one. *)
Theorem analyze_text_join (a b : str) (c : char) :
  is_space c = true ->
  word_count (analyze_text (a ++ c :: b))
  = word_count (analyze_text a) + word_count (analyze_text b)
  /\ char_count (analyze_text (a ++ c :: b))
     = char_count (analyze_text a) + 1 + char_count (analyze_text b).
Proof.
  intros Hc. simpl. unfold split. rewrite split_from_join by assumption.
  rewrite !length_app. simpl. split; lia.
Qed.

(** Two lines of two words each, joined by a newline. *)
Lemma analyze_text_join_example :
  word_count (analyze_text (lit "to be" ++ 10%N :: lit "or not")) = 2 + 2.
Proof.
  exact (proj1 (@analyze_text_join (lit "to be") (lit "or not") 10%N eq_refl)).
Defined.

(** ** [count_sentences] *)

Lemma nonblank_rev (s : str) : nonblank (rev s) = nonblank s.
Proof.
  unfold nonblank. induction s as [|c s IH]; [reflexivity|]. simpl.
  rewrite existsb_app, IH. simpl. rewrite orb_false_r. apply orb_comm.
Qed.

Lemma count_sentences_nonblank (text : str) :
  count_sentences text = length (filter nonblank (re_split text)).
Proof.
  unfold count_sentences. f_equal. apply filter_ext. apply strip_truthy.
Qed.

Lemma no_sentence_from (text : str) : forall in_run cur,
  length (filter nonblank (re_split_from in_run cur text)) = 0
  <-> nonblank cur = false
      /\ forallb (fun c => is_space c || is_terminator c) text = true.
Proof.
  induction text as [|c text IH]; intros in_run cur; simpl.
  - rewrite nonblank_rev. destruct (nonblank cur); simpl; intuition congruence.
  - destruct (is_terminator c) eqn:Hc.
    + rewrite orb_true_r. simpl. destruct in_run.
      * apply IH.
      * simpl. rewrite nonblank_rev. destruct (nonblank cur); simpl.
        -- intuition congruence.
        -- rewrite (IH true []). simpl. intuition.
    + rewrite orb_false_r. rewrite (IH false (c :: cur)). unfold nonblank. simpl.
      destruct (is_space c); simpl; intuition congruence.
Qed.

(** X4: [count_sentences] returns 0 exactly when the text has no
    character other than terminators and whitespace. *)
Theorem no_sentence_iff_blank (text : str) :
  count_sentences text = 0
  <-> forallb (fun c => is_space c || is_terminator c) text = true.
Proof.
  rewrite count_sentences_nonblank. unfold re_split.
  rewrite (no_sentence_from text false []). simpl. intuition.
Qed.

Lemma re_split_from_restart (text : str) :
  filter nonblank (re_split_from true [] text)
  = filter nonblank (re_split_from false [] text).
Proof.
  destruct text as [|c text]; [reflexivity|]. simpl.
  destruct (is_terminator c); reflexivity.
Qed.

Lemma re_split_from_join (a b : str) (t : char) : forall in_run cur,
  is_terminator t = true ->
  (in_run = true -> cur = []) ->
  filter nonblank (re_split_from in_run cur (a ++ t :: b))
  = filter nonblank (re_split_from in_run cur a) ++ filter nonblank (re_split b).
Proof.
  induction a as [|x a IH]; intros in_run cur Ht Hcur; simpl.
  - rewrite Ht. destruct in_run.
    + rewrite (Hcur eq_refl). simpl. apply re_split_from_restart.
    + simpl. rewrite re_split_from_restart. unfold re_split.
      destruct (nonblank (rev cur)); reflexivity.
  - destruct (is_terminator x).
    + destruct in_run.
      * now apply IH.
      * simpl. rewrite (IH true []) by auto.
        destruct (nonblank (rev cur)); reflexivity.
    + apply IH; [assumption | discriminate].
Qed.

(** X5: joining two texts with one terminator adds up their sentence
    counts. *)
Theorem count_sentences_join (a b : str) (t : char) :
  is_terminator t = true ->
  count_sentences (a ++ t :: b) = count_sentences a + count_sentences b.
Proof.
  intros Ht. rewrite !count_sentences_nonblank. unfold re_split at 1 2.
  rewrite re_split_from_join by (assumption || discriminate).
  now rewrite length_app.
Qed.

(** Two texts of two sentences each, joined by an exclamation mark. *)
Lemma count_sentences_join_example :
  count_sentences (lit "Hi. Bye" ++ 33%N :: lit "Well? Yes.") = 2 + 2.
Proof.
  exact (@count_sentences_join (lit "Hi. Bye") (lit "Well? Yes.") 33%N eq_refl).
Defined.

Lemma re_split_from_length (text : str) : forall in_run cur,
  length (re_split_from in_run cur text) <= length (filter is_terminator text) + 1.
Proof.
  induction text as [|c text IH]; intros in_run cur; simpl; [lia|].
  destruct (is_terminator c).
  - destruct in_run; simpl.
    + specialize (IH true cur). lia.
    + specialize (IH true []). lia.
  - apply IH.
Qed.

(** X6: there is at most one sentence more than there are terminator
    characters; a text with no terminator counts as one sentence at
    most. *)
Theorem count_sentences_bound (text : str) :
  count_sentences text <= length (filter is_terminator text) + 1.
Proof.
  rewrite count_sentences_nonblank.
  pose proof (filter_length_le nonblank (re_split text)) as H1.
  pose proof (re_split_from_length text false []) as H2.
  unfold re_split in *. lia.
Qed.

End ServerMore.

(* ================================================================== *)
(** * Part VI: further properties of client.py *)
(* ================================================================== *)

Module TranslatorMore.
Import Py.
Import mcp_types (Tool, inputSchema).
Import genai (FunctionDeclaration, parameters).
Import Client Stated Scenario Observed.
Local Open Scope string_scope.

Lemma translate_items_dicts (items : pydict) : forall properties,
  forallb is_dict (map snd items) = true ->
  exists translated, translate_items items properties = Ok translated.
Proof.
  induction items as [|[name schema] items IH]; simpl; intros properties H.
  - now exists properties.
  - apply andb_true_iff in H as [Hs H]. destruct schema; try discriminate.
    now apply IH.
Qed.

Lemma translate_items_other (items : pydict) : forall properties,
  forallb is_dict (map snd items) = false ->
  exists e,
    translate_items items properties = Raise e /\ exn_class e = AttributeError.
Proof.
  induction items as [|[name schema] items IH]; simpl; intros properties H.
  - discriminate.
  - destruct schema; try (eexists; split; reflexivity). simpl in H. now apply IH.
Qed.

Lemma translator_outcome (refused : genai.refusal) (mcp_tool : Tool) :
  if translatable mcp_tool
  then exists properties required,
      mcp_tool_to_gemini_function refused mcp_tool
      = declare refused mcp_tool properties required
  else exists e,
      mcp_tool_to_gemini_function refused mcp_tool = Raise e
      /\ exn_class e = AttributeError.
Proof.
  unfold translatable, declared, mcp_tool_to_gemini_function, dict_contains.
  destruct (inputSchema mcp_tool) as [schema|]; [|eauto].
  destruct (dict_lookup "properties" schema) as [props|] eqn:E.
  - destruct schema as [|entry schema]; [discriminate|]. cbn [dict_truthy andb].
    destruct props; try (eexists; split; reflexivity).
    destruct (forallb is_dict (map snd entries)) eqn:Hd.
    + destruct (translate_items_dicts entries [] Hd) as [translated ->]. eauto.
    + destruct (translate_items_other entries [] Hd) as (e & -> & He). eauto.
  - rewrite andb_false_r. eauto.
Qed.

(** X7: the translator raises an exception of its own exactly on the
    descriptors whose ['properties'] entry is there and is not a [dict]
    of [dict]s: there it raises an [AttributeError] and does not get to
    the constructor.  On every other descriptor, with or without a
    schema, it calls the constructor of [FunctionDeclaration] with the
    name of the tool, its description and an [OBJECT], and returns what
    the constructor returns: any other exception is the constructor's. *)
Theorem translator_raises_iff (mcp_tool : Tool) :
  if translatable mcp_tool
  then forall refused,
      exists properties required,
        mcp_tool_to_gemini_function refused mcp_tool
        = genai.new_FunctionDeclaration refused
            (mcp_types.name mcp_tool)
            (or_empty (mcp_types.description mcp_tool))
            (JDict [("type", JStr "OBJECT");
                    ("properties", JDict properties);
                    ("required", required)])
  else forall refused,
      exists e,
        mcp_tool_to_gemini_function refused mcp_tool = Raise e
        /\ exn_class e = AttributeError.
Proof.
  destruct (translatable mcp_tool) eqn:T; intros refused.
  - pose proof (translator_outcome refused mcp_tool) as H. rewrite T in H.
    destruct H as (properties & required & H). now exists properties, required.
  - pose proof (translator_outcome refused mcp_tool) as H. now rewrite T in H.
Qed.

Lemma param_type_of_vocabulary (schema_type : option json) :
  In (param_type_of schema_type) vocabulary.
Proof.
  unfold param_type_of.
  repeat match goal with
         | |- context [str_eq ?v ?s] => destruct (str_eq v s)
         end; simpl; auto 10.
Qed.

Lemma dict_set_Forall {V} (P : string * V -> Prop) (k : string) (v : V) (d : dict V) :
  P (k, v) -> Forall P d -> Forall P (dict_set k v d).
Proof.
  intros Hkv. induction 1 as [|[k' v'] d Hk Hd IH]; simpl.
  - now constructor.
  - destruct (String.eqb k k'); constructor; assumption.
Qed.

Lemma translate_items_vocabulary (items : pydict) : forall properties translated,
  Forall in_vocabulary properties ->
  translate_items items properties = Ok translated ->
  Forall in_vocabulary translated.
Proof.
  induction items as [|[name schema] items IH]; simpl; intros properties translated HP H.
  - now inversion H; subst.
  - destruct schema; try discriminate.
    apply (IH _ _ (@dict_set_Forall _ in_vocabulary name _ properties
                     ltac:(eexists; eexists; split;
                           [reflexivity | apply param_type_of_vocabulary]) HP) H).
Qed.

(** X8: every declaration the translator returns is an [OBJECT] whose
    properties each carry a type of the model vocabulary (NUMBER,
    INTEGER, BOOLEAN, STRING, ARRAY or OBJECT) and a description, and
    nothing else. *)
Theorem declared_types_in_vocabulary (refused : genai.refusal) (mcp_tool : Tool)
    (fd : FunctionDeclaration) :
  mcp_tool_to_gemini_function refused mcp_tool = Ok fd ->
  exists properties required,
    parameters fd
    = JDict [("type", JStr "OBJECT");
             ("properties", JDict properties);
             ("required", required)]
    /\ Forall in_vocabulary properties.
Proof.
  assert (Hd : forall properties required,
             Forall in_vocabulary properties ->
             declare refused mcp_tool properties required = Ok fd ->
             exists properties' required',
               parameters fd
               = JDict [("type", JStr "OBJECT");
                        ("properties", JDict properties');
                        ("required", required')]
               /\ Forall in_vocabulary properties').
  { intros properties required HP. unfold declare, genai.new_FunctionDeclaration.
    destruct (refused _ _ _); [discriminate|].
    intros H. inversion H. simpl. eauto. }
  unfold mcp_tool_to_gemini_function.
  destruct (inputSchema mcp_tool) as [schema|]; [|now apply Hd].
  destruct (dict_truthy schema && dict_contains "properties" schema); [|now apply Hd].
  destruct (dict_lookup "properties" schema) as [[]|]; try discriminate.
  destruct (translate_items entries []) as [translated|e] eqn:E; [|discriminate].
  apply Hd.
  apply (@translate_items_vocabulary entries [] translated (Forall_nil _) E).
Qed.

(** The declaration of [count_sentences]. *)
Lemma declared_types_in_vocabulary_example :
  exists properties required,
    parameters (declaration count_sentences_tool)
    = JDict [("type", JStr "OBJECT");
             ("properties", JDict properties);
             ("required", required)]
    /\ Forall in_vocabulary properties.
Proof.
  exact (@declared_types_in_vocabulary schema_refused count_sentences_tool
           (declaration count_sentences_tool) eq_refl).
Defined.

End TranslatorMore.

Module OrchestratorMore.
Import Py.
Import mcp_types (Tool, inputSchema, Content, TextContent, ImageContent,
                  EmbeddedResource, CallToolResult, content, isError).
Import genai (FunctionDeclaration, GeminiTool, function_declarations).
Import protos (FunctionCall, args, Part, function_call, text,
               GenerateContentResponse, parts, prompt_feedback).
Import Client Stated Scenario Observed OrchestratorFacts.
Local Open Scope string_scope.
Local Open Scope list_scope.

(** ** One turn *)

Lemma process_query_more (env : Env) (mcp_session : option ClientSession)
    (gemini_tools_list : list GeminiTool) (user_query : string)
    (past : list event) (response : locals) :
  let evs :=
    snd (fst (process_query env mcp_session gemini_tools_list user_query past response)) in
  queries_sent evs = [user_query]
  /\ filter is_startup evs = []
  /\ length (filter is_function_response evs) <= length (filter is_call_tool evs)
  /\ (mcp_session = Some session -> ~ In (Print no_session_apology) evs).
Proof.
  unfold_turn. split_cases; repeat split; simpl; auto; try lia; try discriminate;
    intros _ H; repeat (destruct H as [H|H]; [discriminate H|]); exact H.
Qed.

Lemma process_query_direct (env : Env) (mcp_session : option ClientSession)
    (gemini_tools_list : list GeminiTool) (user_query : string)
    (past : list event) (response : locals) (response1 : GenerateContentResponse) :
  let tools := tools_argument gemini_tools_list in
  send_message_async env (past ++ [sending_query]) (UserText user_query) tools
  = Ok response1 ->
  requested response1 = None ->
  process_query env mcp_session gemini_tools_list user_query past response
  = (Ok tt,
     [sending_query; SendMessage (UserText user_query) tools;
      Print (direct_line response1)],
     Some response1).
Proof.
  intros tools H1 H2. subst tools. unfold_turn. unfold sending_query in H1.
  rewrite H1. simpl. unfold requested in H2. unfold direct_line.
  destruct (parts response1) as [|part others]; simpl; [reflexivity|].
  rewrite H2. destruct (str_truthy (text part)); reflexivity.
Qed.

(** X9: when the first response of the model asks for no tool, the turn
    is over after one line: the text of the first part, or the notice of
    an unexpected or empty response when there is no part or no text.
    No tool is called, there is no second model call, and the response is
    kept in [response]. *)
Theorem direct_answer (env : Env) (mcp_session : option ClientSession)
    (gemini_tools_list : list GeminiTool) (user_query : string)
    (past : list event) (response : locals) (response1 : GenerateContentResponse) :
  let tools := tools_argument gemini_tools_list in
  send_message_async env (past ++ [sending_query]) (UserText user_query) tools
  = Ok response1 ->
  requested response1 = None ->
  let turn := process_query env mcp_session gemini_tools_list user_query past response in
  turn
  = (Ok tt,
     [sending_query; SendMessage (UserText user_query) tools;
      Print (direct_line response1)],
     Some response1)
  /\ filter is_call_tool (snd (fst turn)) = []
  /\ filter is_function_response (snd (fst turn)) = [].
Proof.
  intros tools H1 H2 turn. subst turn.
  rewrite (@process_query_direct env mcp_session gemini_tools_list user_query
             past response response1 H1 H2).
  repeat split.
Qed.

(** A model that answers with a text. *)
Lemma direct_answer_hello :
  process_query without_tools (Some session) [] "Hello?" [] None
  = (Ok tt,
     [sending_query; SendMessage (UserText "Hello?") None;
      Print (LlmResponse "Hello.")],
     Some {| parts := [says "Hello."]; prompt_feedback := None |}).
Proof.
  exact (proj1 (@direct_answer without_tools (Some session) [] "Hello?" [] None
                  {| parts := [says "Hello."]; prompt_feedback := None |}
                  eq_refl eq_refl)).
Defined.

(** X10: in the loop of [main], where the session is bound, a turn calls
    a tool exactly when the first part of the first response asks for
    one, and then with the name and the arguments of that request. *)
Theorem tool_called_iff_requested (env : Env) (gemini_tools_list : list GeminiTool)
    (user_query : string) (past : list event) (response : locals)
    (tool_name : string) (tool_args : pydict) :
  let tools := tools_argument gemini_tools_list in
  In (CallTool tool_name tool_args)
     (snd (fst (process_query env (Some session) gemini_tools_list user_query
                  past response)))
  <-> exists response1,
        send_message_async env (past ++ [sending_query]) (UserText user_query) tools
        = Ok response1
        /\ requested response1
           = Some {| protos.name := tool_name; args := tool_args |}.
Proof.
  intros tools. subst tools. split.
  - destruct (send_message_async env (past ++ [sending_query]) (UserText user_query)
                (tools_argument gemini_tools_list)) as [response1|e] eqn:H1.
    + intros H. exists response1. split; [reflexivity|].
      destruct (requested response1) as [fc|] eqn:H2.
      * unfold requested in H2.
        destruct (parts response1) as [|part others] eqn:Hp; [discriminate|].
        rewrite (@process_query_tool_path env gemini_tools_list user_query past
                   response response1 part others fc H1 Hp H2) in H.
        unfold up_to_tool_call, tool_call, relay, tool_error_report, sending_query,
          sending_result in H.
        destruct (call_tool env _ _ _) as [r|];
          [destruct (result_content_str env r);
           [match type of H with
            | context [send_message_async env ?h (FunctionResponse ?n ?c) ?t] =>
                destruct (send_message_async env h (FunctionResponse n c) t)
            end|]|];
          simpl in H;
          repeat (destruct H as [H|H]; [try discriminate H|]); try contradiction;
          inversion H; now destruct fc.
      * rewrite (@process_query_direct env (Some session) gemini_tools_list user_query past
                   response response1 H1 H2) in H.
        simpl in H.
        repeat (destruct H as [H|H]; [try discriminate H|]); contradiction.
    + intros H.
      rewrite (@process_query_model_error env (Some session) gemini_tools_list
                 user_query past response e H1) in H.
      unfold model_error_report in H.
      destruct response as [r|]; [destruct (prompt_feedback r)|]; simpl in H;
        repeat (destruct H as [H|H]; [try discriminate H|]); contradiction.
  - intros (response1 & H1 & H2). unfold requested in H2.
    destruct (parts response1) as [|part others] eqn:Hp; [discriminate|].
    rewrite (@process_query_tool_path env gemini_tools_list user_query past response
               response1 part others _ H1 Hp H2).
    apply in_or_app. right. now left.
Qed.

(** ** The loop *)

Lemma queries_sent_app (evs evs' : list event) :
  queries_sent (evs ++ evs') = queries_sent evs ++ queries_sent evs'.
Proof.
  induction evs as [|e evs IH]; [reflexivity|].
  destruct e as [| | | | |[]|]; simpl; now rewrite IH.
Qed.

Lemma chat_loop_more (env : Env) (mcp_session : option ClientSession)
    (gemini_tools_list : list GeminiTool) (inputs : list string) :
  forall (past : list event) (response : locals),
  let evs :=
    snd (fst (chat_loop env mcp_session gemini_tools_list inputs past response)) in
  queries_sent evs = queries inputs
  /\ filter is_startup evs = []
  /\ length (filter is_function_response evs) <= length (filter is_call_tool evs)
  /\ length (filter is_call_tool evs) <= length (queries inputs)
  /\ (mcp_session = Some session -> ~ In (Print no_session_apology) evs).
Proof.
  induction inputs as [|user_query inputs IH]; intros past response.
  - simpl. repeat split; auto; intros _ [].
  - cbn [chat_loop queries]. fold (is_quit user_query).
    destruct (is_quit user_query) eqn:Hquit.
    + unfold bind, emit, ret. simpl. repeat split; auto.
      intros _ [H|[]]. discriminate.
    + destruct (str_truthy user_query) eqn:Hne; cbn [negb]; unfold bind, emit;
        cbn [app].
      * pose proof (process_query_more env mcp_session gemini_tools_list user_query
                      (past ++ [Input user_query]) response) as Hturn.
        pose proof (process_query_shape env mcp_session gemini_tools_list user_query
                      (past ++ [Input user_query]) response) as Hshape.
        destruct (process_query env mcp_session gemini_tools_list user_query
                    (past ++ [Input user_query]) response) as [[r1 evs1] response1].
        cbn [fst snd] in Hturn, Hshape.
        destruct Hturn as (Hq1 & Hs1 & Hf1 & Hn1).
        destruct Hshape as (-> & _ & Hc1 & _).
        specialize (IH ((past ++ [Input user_query]) ++ evs1) response1).
        destruct (chat_loop env mcp_session gemini_tools_list inputs
                    ((past ++ [Input user_query]) ++ evs1) response1)
          as [[r evs] response2].
        cbn [fst snd] in IH |- *. destruct IH as (Hq & Hs & Hf & Hc & Hn).
        change (Input user_query :: evs1 ++ evs) with ([Input user_query] ++ evs1 ++ evs).
        rewrite !queries_sent_app, !filter_app, !length_app, Hq1, Hq, Hs1, Hs.
        simpl. repeat split; auto; try lia.
        intros Hm [H|H]; [discriminate|].
        apply in_app_or in H as [H|H]; [now apply Hn1 | now apply Hn].
      * specialize (IH (past ++ [Input user_query]) response).
        destruct (chat_loop env mcp_session gemini_tools_list inputs
                    (past ++ [Input user_query]) response)
          as [[r evs] response2].
        cbn [fst snd] in IH |- *. destruct IH as (Hq & Hs & Hf & Hc & Hn).
        simpl. repeat split; auto.
        intros Hm [H|H]; [discriminate | now apply Hn].
Qed.

(** ** The start of a session *)

Lemma print_tools_run (tools : list Tool) : forall past response,
  print_tools tools past response = (Ok tt, tool_lines tools, response).
Proof.
  induction tools as [|tool tools IH]; intros past response; [reflexivity|].
  cbn [print_tools]. unfold bind, print, emit. rewrite IH. reflexivity.
Qed.

Lemma discover_tools_run (env : Env) (past : list event) (response : locals) :
  discover_tools env past response
  = (Ok (available (list_tools env)),
     Print (Log "[Client] Discovering tools from server...") :: ListTools
     :: listing (list_tools env),
     response).
Proof.
  unfold discover_tools, try_except, bind, ask, print, emit, ret. cbn [app].
  destruct (list_tools env) as [[|tool tools]|e]; try reflexivity.
  rewrite print_tools_run. cbn [listing available]. simpl.
  now rewrite <- app_assoc.
Qed.

Lemma convert_tools_run (env : Env) (tools : list Tool) (past : list event)
    (response : locals) :
  convert_tools env tools past response
  = match for_each (mcp_tool_to_gemini_function (declaration_refused env)) tools with
    | Ok fds => (Ok (tools_list fds), [converted_line fds], response)
    | Raise e => (Raise e, [], response)
    end.
Proof.
  unfold convert_tools, bind, lift, print, emit, ret.
  destruct (for_each _ tools) as [[|fd fds]|e]; reflexivity.
Qed.

(** A session, piece by piece: how far it gets, and how it ends.  Only
    an exception of the entry into the transport reaches the handlers as
    it is; one that leaves the [async with] blocks is an
    [ExceptionGroup] there. *)
Lemma main_run (env : Env) (server_script_path : string) (inputs : list string) :
  outcome (main env server_script_path inputs) = Ok tt
  /\ events (main env server_script_path inputs)
     = match stdio_client env server_script_path with
       | Raise e =>
           [Print (LogConnecting server_script_path); Connect server_script_path]
           ++ closing server_script_path (Raise e)
       | Ok _ =>
           match initialize env with
           | Raise e =>
               connecting server_script_path
               ++ closing server_script_path (Raise unhandled_errors)
           | Ok _ =>
               match for_each (mcp_tool_to_gemini_function (declaration_refused env))
                       (available (list_tools env)) with
               | Raise e =>
                   connected server_script_path
                   ++ listing (list_tools env)
                   ++ closing server_script_path (Raise unhandled_errors)
               | Ok fds =>
                   let start :=
                     connected server_script_path
                     ++ listing (list_tools env) ++ converted_line fds :: ready in
                   let loop :=
                     chat_loop env (Some session) (tools_list fds) inputs start None in
                   start ++ snd (fst loop)
                   ++ closing server_script_path (in_task_group (fst (fst loop)))
               end
           end
       end.
Proof.
  unfold outcome, events, main, try_finally, try_except, async_with, bind, ask,
    print, emit.
  destruct (stdio_client env server_script_path) as [u|e];
    cbn -[discover_tools convert_tools chat_loop].
  2:{ unfold closing. destruct (exn_class e); split; reflexivity. }
  destruct (initialize env) as [u'|e];
    cbn -[discover_tools convert_tools chat_loop].
  2:{ split; reflexivity. }
  rewrite discover_tools_run. cbn -[discover_tools convert_tools chat_loop].
  rewrite convert_tools_run.
  destruct (for_each _ (available (list_tools env))) as [fds|e];
    cbn -[discover_tools convert_tools chat_loop].
  2:{ unfold closing. split; simpl; rewrite <- ?app_assoc; reflexivity. }
  match goal with
  | |- context [chat_loop env (Some session) (tools_list fds) inputs ?h None] =>
      replace h
        with (connected server_script_path
              ++ listing (list_tools env) ++ converted_line fds :: ready)
        by (unfold connected, ready; simpl; rewrite <- ?app_assoc; reflexivity)
  end.
  destruct (chat_loop env (Some session) (tools_list fds) inputs _ None)
    as [[[[]|e] evs] response]; cbn -[discover_tools convert_tools chat_loop];
    unfold closing, connected, ready; split; simpl; rewrite <- ?app_assoc;
    reflexivity.
Qed.

Lemma plain_facts (evs : list event) :
  Forall plain_line evs ->
  filter is_call_tool evs = []
  /\ filter is_function_response evs = []
  /\ filter is_list_tools evs = []
  /\ queries_sent evs = []
  /\ inputs_read evs = []
  /\ tools_sent evs = []
  /\ ~ In (Print no_session_apology) evs.
Proof.
  induction 1 as [|e evs (o & -> & Ho) _ (H1 & H2 & H3 & H4 & H5 & H6 & H7)]; simpl.
  - repeat split; auto.
  - repeat split; auto. intros [E|E]; [inversion E; congruence | contradiction].
Qed.

Ltac plain := eexists; split; [reflexivity | discriminate].

Lemma tool_lines_plain (tools : list Tool) : Forall plain_line (tool_lines tools).
Proof.
  induction tools as [|tool tools IH]; simpl; [constructor|].
  repeat (constructor; [plain|]). exact IH.
Qed.

Lemma listing_plain (r : result (list Tool)) : Forall plain_line (listing r).
Proof.
  destruct r as [[|tool tools]|e]; cbn [listing].
  - repeat (constructor; [plain|]). constructor.
  - apply Forall_app. split; [repeat (constructor; [plain|]); constructor|].
    apply Forall_app. split; [apply tool_lines_plain|].
    repeat (constructor; [plain|]). constructor.
  - repeat (constructor; [plain|]). constructor.
Qed.

Lemma greeting_plain (fds : list FunctionDeclaration) :
  Forall plain_line (converted_line fds :: ready).
Proof.
  destruct fds; unfold converted_line, ready;
    repeat (constructor; [plain|]); constructor.
Qed.

Lemma closing_plain (server_script_path : string) (r : result unit) :
  Forall plain_line (closing server_script_path r).
Proof.
  unfold closing. destruct r as [u|e]; [|destruct (exn_class e)]; simpl;
    repeat (constructor; [plain|]); constructor.
Qed.

Lemma closing_ends (server_script_path : string) (r : result unit) :
  exists evs, closing server_script_path r = evs ++ [exiting].
Proof. unfold closing. eexists. reflexivity. Qed.

Lemma translated_name (refused : genai.refusal) (mcp_tool : Tool)
    (fd : FunctionDeclaration) :
  mcp_tool_to_gemini_function refused mcp_tool = Ok fd ->
  genai.name fd = mcp_types.name mcp_tool.
Proof.
  assert (Hd : forall properties required,
             declare refused mcp_tool properties required = Ok fd ->
             genai.name fd = mcp_types.name mcp_tool).
  { intros properties required. unfold declare, genai.new_FunctionDeclaration.
    destruct (refused _ _ _); [discriminate | now inversion 1]. }
  unfold mcp_tool_to_gemini_function.
  destruct (inputSchema mcp_tool) as [schema|]; [|apply Hd].
  destruct (dict_truthy schema && dict_contains "properties" schema); [|apply Hd].
  destruct (dict_lookup "properties" schema) as [[]|]; try discriminate.
  destruct (translate_items entries []); [apply Hd | discriminate].
Qed.

Lemma for_each_names (refused : genai.refusal) (tools : list Tool) :
  forall fds,
    for_each (mcp_tool_to_gemini_function refused) tools = Ok fds ->
    map genai.name fds = map mcp_types.name tools.
Proof.
  induction tools as [|tool tools IH]; simpl; intros fds H.
  - now inversion H.
  - destruct (mcp_tool_to_gemini_function refused tool) as [fd|e] eqn:E;
      [|discriminate].
    destruct (for_each _ tools) as [fds'|e]; [|discriminate].
    inversion H. simpl. now rewrite (IH fds' eq_refl), (@translated_name _ _ _ E).
Qed.

Lemma for_each_raises {A B} (f : A -> result B) (xs : list A) (x : A) (e0 : exn) :
  In x xs -> f x = Raise e0 -> exists e, for_each f xs = Raise e.
Proof.
  induction xs as [|y xs IH]; simpl; [contradiction|].
  intros [->|Hin] Hx.
  - rewrite Hx. eauto.
  - destruct (f y); [|eauto]. destruct (IH Hin Hx) as [e ->]. eauto.
Qed.

(** ** Whole sessions *)

(** X11: whatever happens, [main] raises nothing, and the session
    begins with the line that names the server and the attempt to connect
    and ends with the line [[Client] Exiting.]. *)
Theorem session_always_exits (env : Env) (server_script_path : string)
    (inputs : list string) :
  outcome (main env server_script_path inputs) = Ok tt
  /\ exists evs,
      events (main env server_script_path inputs)
      = Print (LogConnecting server_script_path) :: Connect server_script_path
        :: evs ++ [exiting].
Proof.
  destruct (main_run env server_script_path inputs) as [Hout Hev].
  split; [exact Hout|]. rewrite Hev. clear Hout Hev.
  destruct (stdio_client env server_script_path) as [u|e].
  2:{ destruct (closing_ends server_script_path (Raise e)) as [l ->]. now exists l. }
  destruct (initialize env) as [u'|e].
  2:{ destruct (closing_ends server_script_path (Raise unhandled_errors)) as [l ->].
      exists (tl (tl (connecting server_script_path)) ++ l). reflexivity. }
  destruct (for_each _ (available (list_tools env))) as [fds|e].
  - cbv zeta.
    set (start := connected server_script_path ++ _).
    set (loop := chat_loop env (Some session) (tools_list fds) inputs start None).
    destruct (closing_ends server_script_path (in_task_group (fst (fst loop))))
      as [l ->].
    exists (tl (tl start) ++ snd (fst loop) ++ l).
    subst start. unfold connected. simpl. now rewrite <- !app_assoc.
  - destruct (closing_ends server_script_path (Raise unhandled_errors)) as [l ->].
    exists (tl (tl (connected server_script_path)) ++ listing (list_tools env) ++ l).
    unfold connected. simpl. now rewrite <- !app_assoc.
Qed.

(** X12: an exception at the start of the session is fatal.  One raised
    on the entry into the transport is reported by its class (a line for
    a refused connection, a line for a missing file, the exception and a
    traceback for anything else).  One raised by [initialize] leaves the
    [async with] blocks as an [ExceptionGroup] and is reported as an
    unexpected error with a traceback, whatever its class.  In both cases
    the exit follows, the tools are not listed and nothing is read. *)
Theorem startup_failure_is_fatal (env : Env) (server_script_path : string)
    (inputs : list string) (e : exn) :
  (stdio_client env server_script_path = Raise e ->
   events (main env server_script_path inputs)
   = [Print (LogConnecting server_script_path); Connect server_script_path]
     ++ closing server_script_path (Raise e))
  /\ (stdio_client env server_script_path = Ok tt ->
      initialize env = Raise e ->
      events (main env server_script_path inputs)
      = connecting server_script_path
        ++ [Print (LogUnexpected unhandled_errors); Print Traceback; exiting])
  /\ (stdio_client env server_script_path = Raise e
      \/ stdio_client env server_script_path = Ok tt /\ initialize env = Raise e ->
      filter is_list_tools (events (main env server_script_path inputs)) = []
      /\ inputs_read (events (main env server_script_path inputs)) = []).
Proof.
  destruct (main_run env server_script_path inputs) as [_ Hev]. rewrite Hev. clear Hev.
  destruct (plain_facts (closing_plain server_script_path (Raise e)))
    as (_ & _ & Hl & _ & Hi & _).
  destruct (plain_facts (closing_plain server_script_path (Raise unhandled_errors)))
    as (_ & _ & Hl' & _ & Hi' & _).
  split; [|split].
  - now intros ->.
  - now intros -> ->.
  - intros [-> | [-> ->]].
    + rewrite filter_app, inputs_read_app, Hl, Hi. now split.
    + rewrite filter_app, inputs_read_app, Hl', Hi'. now split.
Qed.

(** A server script that does not exist, and a server that does not get
    through [initialize]. *)
Lemma startup_failure_examples :
  events (main with_missing_server "server.py" ["Hello?"])
  = [Print (LogConnecting "server.py"); Connect "server.py";
     Print (LogNotFound "server.py"); exiting]
  /\ events (main with_failing_initialize "server.py" ["Hello?"])
     = connecting "server.py"
       ++ [Print (LogUnexpected unhandled_errors); Print Traceback; exiting].
Proof.
  split.
  - exact (proj1 (startup_failure_is_fatal with_missing_server "server.py" ["Hello?"]
                    missing_script) eq_refl).
  - exact (proj1 (proj2 (startup_failure_is_fatal with_failing_initialize "server.py"
                           ["Hello?"] unready)) eq_refl eq_refl).
Defined.

(** X13: one descriptor on which the translator raises, be it the
    [AttributeError] of the translator or an exception of the
    constructor, is enough to end the session: the tools are printed, an
    unexpected error is reported with a traceback (the exception leaves
    the [async with] blocks as an [ExceptionGroup]), and the process
    exits without reading a line or calling the model. *)
Theorem malformed_descriptor_ends_session (env : Env) (server_script_path : string)
    (inputs : list string) (tools : list Tool) (tool : Tool) (e : exn) :
  let evs := events (main env server_script_path inputs) in
  stdio_client env server_script_path = Ok tt ->
  initialize env = Ok tt ->
  list_tools env = Ok tools ->
  In tool tools ->
  mcp_tool_to_gemini_function (declaration_refused env) tool = Raise e ->
  evs = connected server_script_path
        ++ listing (Ok tools)
        ++ [Print (LogUnexpected unhandled_errors); Print Traceback; exiting]
  /\ inputs_read evs = []
  /\ tools_sent evs = [].
Proof.
  intros evs Hc Hi Hl Hin Ht. subst evs.
  destruct (main_run env server_script_path inputs) as [_ Hev]. rewrite Hev. clear Hev.
  rewrite Hc, Hi, Hl. cbn [available].
  destruct (@for_each_raises _ _ _ tools tool e Hin Ht) as [e' ->].
  destruct (plain_facts (listing_plain (Ok tools))) as (_ & _ & _ & _ & Hi1 & Ht1 & _).
  destruct (plain_facts (closing_plain server_script_path (Raise unhandled_errors)))
    as (_ & _ & _ & _ & Hi2 & Ht2 & _).
  split; [reflexivity|]. split.
  - now rewrite !inputs_read_app, Hi1, Hi2.
  - now rewrite !tools_sent_app, Ht1, Ht2.
Qed.

(** A server one of whose two tools has a parameter with the schema
    [true], and one of whose two tools has a number for a description,
    which the constructor refuses. *)
Lemma malformed_descriptor_examples :
  inputs_read (events (main with_malformed_tool "server.py" ["Hello?"; "quit"])) = []
  /\ inputs_read (events (main with_refused_tool "server.py" ["Hello?"; "quit"])) = [].
Proof.
  split.
  - exact (proj1 (proj2 (@malformed_descriptor_ends_session with_malformed_tool
                           "server.py" ["Hello?"; "quit"]
                           [count_sentences_tool; boolean_schema_tool]
                           boolean_schema_tool
                           (Exn AttributeError "'bool' object has no attribute 'get'")
                           eq_refl eq_refl eq_refl (or_intror (or_introl eq_refl))
                           eq_refl))).
  - exact (proj1 (proj2 (@malformed_descriptor_ends_session with_refused_tool
                           "server.py" ["Hello?"; "quit"]
                           [count_sentences_tool; numeric_description_tool]
                           numeric_description_tool bad_schema
                           eq_refl eq_refl eq_refl (or_intror (or_introl eq_refl))
                           eq_refl))).
Defined.

(** X14: when the server lists tools and the translator returns a
    declaration for each of them, the loop is given one [Tool] that holds
    these declarations, one per descriptor, under the same names and in
    the same order, and every model call of the session, the one for the
    query and the one for a tool result, carries it. *)
Theorem declarations_attached (env : Env) (server_script_path : string)
    (inputs : list string) (tool : Tool) (tools : list Tool)
    (fds : list FunctionDeclaration) :
  stdio_client env server_script_path = Ok tt ->
  initialize env = Ok tt ->
  list_tools env = Ok (tool :: tools) ->
  for_each (mcp_tool_to_gemini_function (declaration_refused env)) (tool :: tools)
  = Ok fds ->
  map genai.name fds = map mcp_types.name (tool :: tools)
  /\ Forall (eq (Some [{| function_declarations := fds |}]))
       (tools_sent (events (main env server_script_path inputs))).
Proof.
  intros Hc Hi Hl Ht.
  pose proof (@for_each_names _ _ _ Ht) as Hn. split; [exact Hn|].
  destruct (main_run env server_script_path inputs) as [_ Hev]. rewrite Hev. clear Hev.
  rewrite Hc, Hi, Hl. cbn [available]. rewrite Ht. cbv zeta.
  destruct fds as [|fd fds]; [discriminate|].
  set (start := connected server_script_path ++ _).
  pose proof (chat_loop_shape env (Some session) (tools_list (fd :: fds)) inputs
                start None) as L.
  cbv zeta in L. destruct L as (_ & _ & Hsent & _).
  destruct (plain_facts (listing_plain (Ok (tool :: tools))))
    as (_ & _ & _ & _ & _ & Ht1 & _).
  destruct (plain_facts (greeting_plain (fd :: fds))) as (_ & _ & _ & _ & _ & Ht2 & _).
  match goal with |- context [closing server_script_path ?r] =>
    destruct (plain_facts (closing_plain server_script_path r))
      as (_ & _ & _ & _ & _ & Ht3 & _) end.
  subst start. rewrite !tools_sent_app, Ht1, Ht2, Ht3. simpl. rewrite app_nil_r.
  exact Hsent.
Qed.

(** The two tools of [server.py]. *)
Lemma declarations_attached_demo :
  map genai.name (map declaration server_tools) = ["analyze_text"; "count_sentences"]
  /\ Forall (eq (Some [{| function_declarations := map declaration server_tools |}]))
       (tools_sent (events (main demo "server.py" ["How many?"; "quit"]))).
Proof.
  exact (@declarations_attached demo "server.py" ["How many?"; "quit"]
           analyze_text_tool [count_sentences_tool] (map declaration server_tools)
           eq_refl eq_refl eq_refl eq_refl).
Defined.

Lemma no_startup_no_listing (evs : list event) :
  filter is_startup evs = [] -> filter is_list_tools evs = [].
Proof.
  induction evs as [|e evs IH]; [reflexivity|].
  destruct e; simpl; try discriminate; exact IH.
Qed.

(** X15: in a session that reaches the loop (the connection is made,
    [initialize] returns, and the translator returns a declaration for
    every tool there is), the user texts given to the model are, in
    order, the lines read before the first quit command that are not
    empty: an empty line and the quit command cause no model call, and no
    line is sent twice. *)
Theorem queries_reach_model (env : Env) (server_script_path : string)
    (inputs : list string) (fds : list FunctionDeclaration) :
  stdio_client env server_script_path = Ok tt ->
  initialize env = Ok tt ->
  for_each (mcp_tool_to_gemini_function (declaration_refused env))
    (available (list_tools env)) = Ok fds ->
  queries_sent (events (main env server_script_path inputs)) = queries inputs.
Proof.
  intros Hc Hi Ht.
  destruct (main_run env server_script_path inputs) as [_ Hev]. rewrite Hev. clear Hev.
  rewrite Hc, Hi, Ht. cbv zeta.
  set (start := connected server_script_path ++ _).
  pose proof (chat_loop_more env (Some session) (tools_list fds) inputs start None) as L.
  cbv zeta in L. destruct L as (Hq & _).
  destruct (plain_facts (listing_plain (list_tools env))) as (_ & _ & _ & Hq1 & _).
  destruct (plain_facts (greeting_plain fds)) as (_ & _ & _ & Hq2 & _).
  match goal with |- context [closing server_script_path ?r] =>
    destruct (plain_facts (closing_plain server_script_path r))
      as (_ & _ & _ & Hq3 & _) end.
  subst start. rewrite !queries_sent_app, Hq, Hq1, Hq2, Hq3. simpl.
  now rewrite app_nil_r.
Qed.

(** Two queries, an empty line between them, and a line after the quit command. *)
Lemma queries_reach_model_demo :
  queries_sent
    (events (main demo "server.py" ["How many?"; ""; "Again?"; "QUIT"; "unread"]))
  = ["How many?"; "Again?"].
Proof.
  exact (@queries_reach_model demo "server.py"
           ["How many?"; ""; "Again?"; "QUIT"; "unread"]
           (map declaration server_tools) eq_refl eq_refl eq_refl).
Defined.

(** X16: in every session there are at most as many tool calls as
    queries, and at most as many tool results sent to the model as tool
    calls: no tool is called without a query, and no tool result is sent
    without a call. *)
Theorem tool_calls_bounded (env : Env) (server_script_path : string)
    (inputs : list string) :
  let evs := events (main env server_script_path inputs) in
  length (filter is_call_tool evs) <= length (queries inputs)
  /\ length (filter is_function_response evs) <= length (filter is_call_tool evs).
Proof.
  intros evs. subst evs.
  destruct (main_run env server_script_path inputs) as [_ Hev]. rewrite Hev. clear Hev.
  destruct (stdio_client env server_script_path) as [u|e].
  2:{ match goal with |- context [closing server_script_path ?r] =>
        destruct (plain_facts (closing_plain server_script_path r))
          as (H1 & H2 & _) end.
      rewrite !filter_app, H1, H2. simpl. lia. }
  destruct (initialize env) as [u'|e].
  2:{ match goal with |- context [closing server_script_path ?r] =>
        destruct (plain_facts (closing_plain server_script_path r))
          as (H1 & H2 & _) end.
      rewrite !filter_app, H1, H2. simpl. lia. }
  destruct (plain_facts (listing_plain (list_tools env))) as (G1 & G2 & _).
  destruct (for_each (mcp_tool_to_gemini_function (declaration_refused env))
              (available (list_tools env)))
    as [fds|e].
  - cbv zeta. set (start := connected server_script_path ++ _).
    pose proof (chat_loop_more env (Some session) (tools_list fds) inputs start None)
      as L.
    cbv zeta in L. destruct L as (_ & _ & Hf & Hc & _).
    destruct (plain_facts (greeting_plain fds)) as (K1 & K2 & _).
    match goal with |- context [closing server_script_path ?r] =>
      destruct (plain_facts (closing_plain server_script_path r))
        as (H1 & H2 & _) end.
    subst start. rewrite !filter_app, G1, G2, K1, K2, H1, H2. simpl.
    rewrite !app_nil_r. now split.
  - match goal with |- context [closing server_script_path ?r] =>
      destruct (plain_facts (closing_plain server_script_path r))
        as (H1 & H2 & _) end.
    rewrite !filter_app, G1, G2, H1, H2. simpl. lia.
Qed.

(** X17: the server is asked for its tools at most once in a session,
    whatever the session goes through. *)
Theorem tools_listed_once (env : Env) (server_script_path : string)
    (inputs : list string) :
  length (filter is_list_tools (events (main env server_script_path inputs))) <= 1.
Proof.
  destruct (main_run env server_script_path inputs) as [_ Hev]. rewrite Hev. clear Hev.
  destruct (stdio_client env server_script_path) as [u|e].
  2:{ match goal with |- context [closing server_script_path ?r] =>
        destruct (plain_facts (closing_plain server_script_path r))
          as (_ & _ & H1 & _) end.
      rewrite !filter_app, H1. simpl. lia. }
  destruct (initialize env) as [u'|e].
  2:{ match goal with |- context [closing server_script_path ?r] =>
        destruct (plain_facts (closing_plain server_script_path r))
          as (_ & _ & H1 & _) end.
      rewrite !filter_app, H1. simpl. lia. }
  destruct (plain_facts (listing_plain (list_tools env))) as (_ & _ & G1 & _).
  destruct (for_each (mcp_tool_to_gemini_function (declaration_refused env))
              (available (list_tools env)))
    as [fds|e].
  - cbv zeta. set (start := connected server_script_path ++ _).
    pose proof (chat_loop_more env (Some session) (tools_list fds) inputs start None)
      as L.
    cbv zeta in L. destruct L as (_ & Hs & _).
    apply no_startup_no_listing in Hs.
    destruct (plain_facts (greeting_plain fds)) as (_ & _ & K1 & _).
    match goal with |- context [closing server_script_path ?r] =>
      destruct (plain_facts (closing_plain server_script_path r))
        as (_ & _ & H1 & _) end.
    subst start. rewrite !filter_app, G1, K1, H1, Hs. simpl. lia.
  - match goal with |- context [closing server_script_path ?r] =>
      destruct (plain_facts (closing_plain server_script_path r))
        as (_ & _ & H1 & _) end.
    rewrite !filter_app, G1, H1. simpl. lia.
Qed.

(** X18: the branch of a turn for a missing session is never taken in a
    session: no run of [main] prints the apology [Sorry, I cannot
    currently use tools.], because the loop is only entered with the
    session bound. *)
Theorem session_is_always_bound (env : Env) (server_script_path : string)
    (inputs : list string) :
  ~ In (Print no_session_apology) (events (main env server_script_path inputs)).
Proof.
  destruct (main_run env server_script_path inputs) as [_ Hev]. rewrite Hev. clear Hev.
  assert (Hstart : forall evs,
             In (Print no_session_apology) (connected server_script_path ++ evs) ->
             In (Print no_session_apology) evs).
  { intros evs H. unfold connected in H. simpl in H.
    repeat (destruct H as [H|H]; [discriminate H|]). exact H. }
  destruct (stdio_client env server_script_path) as [u|e].
  2:{ intros H. simpl in H. repeat (destruct H as [H|H]; [discriminate H|]).
      first [contradiction | revert H; now apply plain_facts, closing_plain]. }
  destruct (initialize env) as [u'|e].
  2:{ intros H. unfold connecting in H. simpl in H.
      repeat (destruct H as [H|H]; [discriminate H|]).
      first [contradiction | revert H; now apply plain_facts, closing_plain]. }
  destruct (for_each (mcp_tool_to_gemini_function (declaration_refused env))
              (available (list_tools env)))
    as [fds|e].
  - cbv zeta. set (start := connected server_script_path ++ _).
    pose proof (chat_loop_more env (Some session) (tools_list fds) inputs start None)
      as L.
    cbv zeta in L. destruct L as (_ & _ & _ & _ & Hn).
    intros H. apply in_app_or in H as [H|H].
    + subst start. apply Hstart in H. apply in_app_or in H as [H|H].
      * now apply (plain_facts (listing_plain (list_tools env))).
      * now apply (plain_facts (greeting_plain fds)).
    + apply in_app_or in H as [H|H]; [now apply Hn|].
      first [contradiction | revert H; now apply plain_facts, closing_plain].
  - intros H. apply Hstart in H. apply in_app_or in H as [H|H].
    + now apply (plain_facts (listing_plain (list_tools env))).
    + first [contradiction | revert H; now apply plain_facts, closing_plain].
Qed.

(** ** The boundary of a turn, and the ends of a session *)




End OrchestratorMore.
